(** * Active Appearance Models: instance synthesis (menpofit/aam/base.py)

    A shallow embedding of [AAM] and [PatchBasedAAM]: the container of
    per-level PCA models and the synthesis pipeline of [instance],
    [random_instance], [_instance] and [_build_reference_frame].

    The numeric and imaging collaborators (PCA models, the reference-frame
    builders of [menpofit.aam.builder], the warp, the PRNG) are not part of
    the file under study; they enter as section variables, so that every
    statement holds for any implementation of them.  Python's own
    behaviour is written out: negative list indices, [None] defaults,
    dictionary lookups that raise, the class test of
    [_build_reference_frame], and the difference between [*=] on a list
    (which yields a new array) and on an ndarray (which writes through to
    the caller's object). *)

From stdpp Require Import gmap strings list pretty.
From Stdlib Require Import ZArith Floats.

Open Scope Z_scope.

(** ** Python exceptions and results *)

Inductive exn : Set :=
| IndexError
| KeyError
| AttributeError
| ValueError
| TypeError.

Inductive result (A : Type) : Type :=
| Ok (a : A)
| Raise (e : exn).
Arguments Ok {A} a.
Arguments Raise {A} e.

Definition rbind {A B} (r : result A) (k : A → result B) : result B :=
  match r with
  | Ok a => k a
  | Raise e => Raise e
  end.

(** Statements run against a mutable state [S]; an exception leaves the
    state as it was when it was raised. *)
Definition M (S A : Type) : Type := S → result A * S.

Definition ret {S A} (a : A) : M S A := λ s, (Ok a, s).

Definition bind {S A B} (m : M S A) (k : A → M S B) : M S B :=
  λ s, match m s with
       | (Ok a, s') => k a s'
       | (Raise e, s') => (Raise e, s')
       end.

Definition lift {S A} (r : result A) : M S A := λ s, (r, s).

Notation "'do' x <- m ; k" := (bind m (λ x, k))
  (at level 10, x name, m at level 100, k at level 200).
Notation "'try' x <- r ; k" := (rbind r (λ x, k))
  (at level 10, x name, r at level 100, k at level 200).

(** ** Python list indexing: [l[i]] with negative indices from the end *)

Definition py_getitem {A} (l : list A) (i : Z) : result A :=
  let n := Z.of_nat (length l) in
  let j := if i <? 0 then i + n else i in
  if (j <? 0) || (n <=? j) then Raise IndexError
  else match l !! Z.to_nat j with
       | Some x => Ok x
       | None => Raise IndexError
       end.

(** ** Classes of landmark objects

    A class is the chain of class names from the object's own class up
    through its bases.  [type(x) == C] is equality of the chains;
    [issubclass] is the suffix order. *)

Definition pyclass : Type := list string.

Definition PointCloud : pyclass := ["PointCloud"; "Shape"]%string.
Definition TriMesh : pyclass := ("TriMesh" :: PointCloud)%string.
Definition ColouredTriMesh : pyclass := ("ColouredTriMesh" :: TriMesh)%string.
Definition TexturedTriMesh : pyclass := ("TexturedTriMesh" :: TriMesh)%string.

Definition type_eq (c d : pyclass) : bool := bool_decide (c = d).

Definition issubclass (c d : pyclass) : Prop := d `suffix_of` c.

Definition proper_subclass (c d : pyclass) : Prop := issubclass c d ∧ c ≠ d.

Definition trilist_t : Type := list (nat * nat * nat).

(** The default level argument of [instance] and [random_instance]. *)
Definition default_level : Z := -1.

Section AAM.

(** ** Collaborators *)

(** Array elements with the two operations the module applies to them:
    the product and [** 0.5]. *)
Context {scalar : Type}.
Variable zero : scalar.
Variable mul : scalar → scalar → scalar.
Variable sqrt : scalar → scalar.

(** Opaque data of the imaging library. *)
Context {Pixels Mask Transform Features : Type}.

(** A point set.  [trilist_attr] is the [trilist] attribute, which only
    meshes carry. *)
Record Shape : Type := {
  shape_type : pyclass;
  points : list (list scalar);
  trilist_attr : option trilist_t
}.

(** An image with its landmark manager ([landmarks[label].lms]) and, for
    masked images, its [mask] attribute. *)
Record Image : Type := {
  pixels : Pixels;
  mask_attr : option Mask;
  landmarks : gmap string Shape
}.

(** The interface of [PCAModel] the module relies on. *)
Record PCAModel (T : Type) : Type := {
  eigenvalues : list scalar;
  n_active_components : nat;
  mean : T;
  pca_instance : list scalar → result T
}.
Arguments eigenvalues {T} _.
Arguments n_active_components {T} _.
Arguments mean {T} _.
Arguments pca_instance {T} _ _.

(** [menpofit.aam.builder]. *)
Variable build_reference_frame : Shape → option trilist_t → result Image.
Variable build_patch_reference_frame : Shape → nat * nat → result Image.

(** [Image.as_unmasked(copy=...)] and
    [Image.warp_to_mask(mask, transform, warp_landmarks=...)]. *)
Variable as_unmasked : Image → bool → result Image.
Variable warp_to_mask : Image → Mask → Transform → bool → result Image.

(** [np.random.randn(n)], with the generator state made explicit. *)
Context {rng : Type}.
Variable randn : nat → rng → list scalar * rng.

(** ** The model container *)

Inductive aam_class : Type :=
| AAM_cls
| PatchBasedAAM_cls (patch_shape : nat * nat).

Record AAM : Type := {
  cls : aam_class;
  features : Features;
  n_training_images : nat;
  shape_models : list (PCAModel Shape);
  appearance_models : list (PCAModel Image);
  transform : Shape → Shape → result Transform;
  reference_shape : Shape;
  downscale : scalar;
  scaled_shape_models : bool
}.

Definition n_levels (self : AAM) : nat := length (appearance_models self).

(** ** numpy on one-dimensional arrays

    Coefficient vectors and eigenvalue sequences are one-dimensional
    arrays of numbers, here lists. *)

(** [x * y] with broadcasting: equal lengths, or one operand of length 1. *)
Definition np_multiply (x y : list scalar) : result (list scalar) :=
  if bool_decide (length x = length y) then Ok (zip_with mul x y)
  else match x, y with
       | [a], _ => Ok (mul a <$> y)
       | _, [b] => Ok ((λ a, mul a b) <$> x)
       | _, _ => Raise ValueError
       end.

(** [x *= y] on an ndarray [x]: the product has to fit the shape of [x]. *)
Definition np_imultiply (x y : list scalar) : result (list scalar) :=
  if bool_decide (length x = length y) then Ok (zip_with mul x y)
  else match y with
       | [b] => Ok ((λ a, mul a b) <$> x)
       | _ => Raise ValueError
       end.

(** [eigenvalues[:n] ** 0.5] *)
Definition sqrt_eigenvalues {T} (m : PCAModel T) (n : nat) : list scalar :=
  sqrt <$> take n (eigenvalues m).

(** ** Weight arguments and the store of caller-owned arrays *)

(** A weights argument is a Python list of numbers or a reference to an
    ndarray that the caller also holds. *)
Inductive pyweights : Type :=
| PyList (l : list scalar)
| NdArray (a : nat).

Abbreviation store := (gmap nat (list scalar)).

(** Reading the array behind a reference.  A reference always has its
    array in a running program; the store of the model may lack it, and
    the read then fails. *)
Definition load (a : nat) : M store (list scalar) :=
  λ st, match st !! a with
        | Some x => (Ok x, st)
        | None => (Raise TypeError, st)
        end.

(** [len(w)] *)
Definition py_len (w : pyweights) : M store nat :=
  match w with
  | PyList l => ret (length l)
  | NdArray a => do x <- load a; ret (length x)
  end.

(** [w *= rhs] for an ndarray [rhs].  A list has no in-place product, so
    numpy's product builds a new array and the name is rebound to it; an
    ndarray is overwritten in place.  The value returned is the content of
    the array the name [w] is bound to afterwards. *)
Definition imul (w : pyweights) (rhs : list scalar) : M store (list scalar) :=
  match w with
  | PyList l => lift (np_multiply l rhs)
  | NdArray a =>
      do x <- load a;
      do y <- lift (np_imultiply x rhs);
      λ st, (Ok y, <[a := y]> st)
  end.

(** ** Synthesis *)

Definition getitem_landmarks (img : Image) (label : string) : result Shape :=
  match landmarks img !! label with
  | Some s => Ok s
  | None => Raise KeyError
  end.

Definition getattr_trilist (s : Shape) : result trilist_t :=
  match trilist_attr s with
  | Some t => Ok t
  | None => Raise AttributeError
  end.

Definition getattr_mask (img : Image) : result Mask :=
  match mask_attr img with
  | Some m => Ok m
  | None => Raise AttributeError
  end.

(** [AAM._build_reference_frame] and its override in [PatchBasedAAM]. *)
Definition _build_reference_frame (self : AAM)
    (reference_shape : Shape) (landmarks : Shape) : result Image :=
  match cls self with
  | AAM_cls =>
      try trilist <-
        (if type_eq (shape_type landmarks) TriMesh
         then try t <- getattr_trilist landmarks; Ok (Some t)
         else Ok None);
      build_reference_frame reference_shape trilist
  | PatchBasedAAM_cls patch_shape =>
      build_patch_reference_frame reference_shape patch_shape
  end.

(** [AAM._instance] *)
Definition _instance (self : AAM) (level : Z)
    (shape_instance : Shape) (appearance_instance : Image) : result Image :=
  try am <- py_getitem (appearance_models self) level;
  let template := mean am in
  try landmarks <- getitem_landmarks template "source";
  try reference_frame <-
    _build_reference_frame self shape_instance landmarks;
  try rf_landmarks <- getitem_landmarks reference_frame "source";
  try transform <- transform self rf_landmarks landmarks;
  try unmasked <- as_unmasked appearance_instance false;
  try mask <- getattr_mask reference_frame;
  warp_to_mask unmasked mask transform true.

(** [AAM.instance].  An omitted [level] is [None] here and takes the
    default; [None] for a weights argument is Python's [None]. *)
Definition instance (self : AAM)
    (shape_weights appearance_weights : option pyweights)
    (level : option Z) : M store Image :=
  let level := default default_level level in
  do sm <- lift (py_getitem (shape_models self) level);
  do am <- lift (py_getitem (appearance_models self) level);
  let shape_weights := default (PyList [zero]) shape_weights in
  let appearance_weights := default (PyList [zero]) appearance_weights in
  do n_shape_weights <- py_len shape_weights;
  do shape_weights <- imul shape_weights (sqrt_eigenvalues sm n_shape_weights);
  do shape_instance <- lift (pca_instance sm shape_weights);
  do n_appearance_weights <- py_len appearance_weights;
  do appearance_weights <-
    imul appearance_weights (sqrt_eigenvalues am n_appearance_weights);
  do appearance_instance <- lift (pca_instance am appearance_weights);
  lift (_instance self level shape_instance appearance_instance).

(** [np.random.randn(n)] as a statement: draws and advances the generator. *)
Definition np_random_randn (n : nat) : M rng (list scalar) :=
  λ g, let '(z, g') := randn n g in (Ok z, g').

(** [AAM.random_instance] *)
Definition random_instance (self : AAM) (level : option Z) : M rng Image :=
  let level := default default_level level in
  do sm <- lift (py_getitem (shape_models self) level);
  do am <- lift (py_getitem (appearance_models self) level);
  do z <- np_random_randn (n_active_components sm);
  do shape_weights <-
    lift (np_multiply z (sqrt_eigenvalues sm (n_active_components sm)));
  do shape_instance <- lift (pca_instance sm shape_weights);
  do z <- np_random_randn (n_active_components am);
  do appearance_weights <-
    lift (np_multiply z (sqrt_eigenvalues am (n_active_components am)));
  do appearance_instance <- lift (pca_instance am appearance_weights);
  lift (_instance self level shape_instance appearance_instance).

(** ** Vocabulary of the specification *)

(** What a weights argument holds when the call is made. *)
Definition contents (st : store) (w : pyweights) : option (list scalar) :=
  match w with
  | PyList l => Some l
  | NdArray a => st !! a
  end.

(** The store once the array behind [w] holds [v]; a list argument owns no
    cell of the store. *)
Definition store_after (w : pyweights) (v : list scalar) (st : store) : store :=
  match w with
  | PyList _ => st
  | NdArray a => <[a := v]> st
  end.

(** A coefficient vector in standard-deviation units, entry [i] multiplied
    by the square root of eigenvalue [i]. *)
Definition in_std_units {T} (m : PCAModel T) (ws : list scalar) : list scalar :=
  zip_with mul ws (sqrt <$> take (length ws) (eigenvalues m)).

(** The rendering of a shape and an appearance through a given
    reference-frame strategy: steps 1 to 4 of the instance synthesizer. *)
Definition spec_synthesize (frame_of : Shape → Shape → result Image)
    (self : AAM) (level : Z) (shape_instance : Shape)
    (appearance_instance : Image) : result Image :=
  try am <- py_getitem (appearance_models self) level;
  try template_landmarks <- getitem_landmarks (mean am) "source";
  try frame <- frame_of shape_instance template_landmarks;
  try frame_landmarks <- getitem_landmarks frame "source";
  try warp <- transform self frame_landmarks template_landmarks;
  try unmasked <- as_unmasked appearance_instance false;
  try mask <- getattr_mask frame;
  warp_to_mask unmasked mask warp true.

(** The contract of the model container's [instance] operation with the
    reference-frame strategy left open: coefficient scaling, subspace
    sampling, then synthesis. *)
Definition spec_instance (frame_of : Shape → Shape → result Image)
    (self : AAM) (shape_weights appearance_weights : option pyweights)
    (level : option Z) : M store Image :=
  let level := default default_level level in
  do sm <- lift (py_getitem (shape_models self) level);
  do am <- lift (py_getitem (appearance_models self) level);
  let sw := default (PyList [zero]) shape_weights in
  let aw := default (PyList [zero]) appearance_weights in
  do k <- py_len sw;
  do scaled <- imul sw (sqrt_eigenvalues sm k);
  do shape_instance <- lift (pca_instance sm scaled);
  do k <- py_len aw;
  do scaled <- imul aw (sqrt_eigenvalues am k);
  do appearance_instance <- lift (pca_instance am scaled);
  lift (spec_synthesize frame_of self level shape_instance appearance_instance).

(** The two strategies: a dense frame triangulated by the template
    landmarks when these are a [TriMesh], and a grid of patches. *)
Definition dense_frame (reference_shape landmarks : Shape) : result Image :=
  if type_eq (shape_type landmarks) TriMesh
  then try t <- getattr_trilist landmarks;
       build_reference_frame reference_shape (Some t)
  else build_reference_frame reference_shape None.

(** A dense strategy that would triangulate by the shape instance itself
    rather than by the template landmarks. *)
Definition shape_own_frame (reference_shape landmarks : Shape) : result Image :=
  build_reference_frame reference_shape
    (if type_eq (shape_type reference_shape) TriMesh
     then trilist_attr reference_shape else None).

Definition patch_frame (patch_shape : nat * nat)
    (reference_shape landmarks : Shape) : result Image :=
  build_patch_reference_frame reference_shape patch_shape.

(** The array a weights name is bound to after
    [w *= m.eigenvalues[:len(w)] ** 0.5], for a [w] that holds [ws]: the
    product of numpy for a list, the in-place product for an ndarray. *)
Definition scaled_weights {T} (m : PCAModel T) (w : pyweights)
    (ws : list scalar) : result (list scalar) :=
  match w with
  | PyList _ => np_multiply ws (sqrt_eigenvalues m (length ws))
  | NdArray _ => np_imultiply ws (sqrt_eigenvalues m (length ws))
  end.

(** [_instance] with the appearance model of the level in hand. *)
Definition synthesize_with (self : AAM) (am : PCAModel Image)
    (shape_instance : Shape) (appearance_instance : Image) : result Image :=
  let template := mean am in
  try landmarks <- getitem_landmarks template "source";
  try reference_frame <-
    _build_reference_frame self shape_instance landmarks;
  try rf_landmarks <- getitem_landmarks reference_frame "source";
  try transform <- transform self rf_landmarks landmarks;
  try unmasked <- as_unmasked appearance_instance false;
  try mask <- getattr_mask reference_frame;
  warp_to_mask unmasked mask transform true.

(** [instance] with the two models of the level in hand. *)
Definition instance_with (self : AAM) (sm : PCAModel Shape)
    (am : PCAModel Image) (shape_weights appearance_weights : option pyweights)
    : M store Image :=
  let shape_weights := default (PyList [zero]) shape_weights in
  let appearance_weights := default (PyList [zero]) appearance_weights in
  do n_shape_weights <- py_len shape_weights;
  do shape_weights <- imul shape_weights (sqrt_eigenvalues sm n_shape_weights);
  do shape_instance <- lift (pca_instance sm shape_weights);
  do n_appearance_weights <- py_len appearance_weights;
  do appearance_weights <-
    imul appearance_weights (sqrt_eigenvalues am n_appearance_weights);
  do appearance_instance <- lift (pca_instance am appearance_weights);
  lift (synthesize_with self am shape_instance appearance_instance).

(** [random_instance] with the two models of the level in hand. *)
Definition random_instance_with (self : AAM) (sm : PCAModel Shape)
    (am : PCAModel Image) : M rng Image :=
  do z <- np_random_randn (n_active_components sm);
  do shape_weights <-
    lift (np_multiply z (sqrt_eigenvalues sm (n_active_components sm)));
  do shape_instance <- lift (pca_instance sm shape_weights);
  do z <- np_random_randn (n_active_components am);
  do appearance_weights <-
    lift (np_multiply z (sqrt_eigenvalues am (n_active_components am)));
  do appearance_instance <- lift (pca_instance am appearance_weights);
  lift (synthesize_with self am shape_instance appearance_instance).

(** ** Display *)

(** Python lists of lines: [l[i] = x], which raises outside the list, and
    [l.insert(i, x)], which appends when [i] is past the end. *)
Definition py_setitem {A} (l : list A) (i : nat) (x : A) : result (list A) :=
  if decide (i < length l)%nat then Ok (<[i := x]> l) else Raise IndexError.

Definition py_insert {A} (i : nat) (x : A) (l : list A) : list A :=
  take i l ++ x :: drop i l.

Definition newline : string := String (Ascii.ascii_of_nat 10) "".

(** [sep.join(l)] *)
Definition py_join (sep : string) (l : list string) : string :=
  String.concat sep l.

(** [_str_title] of the two classes. *)
Definition _str_title (self : AAM) : string :=
  match cls self with
  | AAM_cls => "Active Appearance Model"
  | PatchBasedAAM_cls _ => "Patch-Based Active Appearance Model"
  end.

(** [str.splitlines] of the string library. *)
Variable splitlines : string → list string.

(** [PatchBasedAAM.__str__], given the text [out] that [AAM.__str__]
    returns for the same object; for the base class that text is the
    result. *)
Definition __str__ (self : AAM) (out : string) : result string :=
  match cls self with
  | AAM_cls => Ok out
  | PatchBasedAAM_cls patch_shape =>
      let out_splitted := splitlines out in
      try out_splitted <- py_setitem out_splitted 0 (_str_title self);
      let out_splitted :=
        py_insert 5 ("   - Patch size is " +:+ pretty patch_shape.2 +:+
                     "W x " +:+ pretty patch_shape.1 +:+ "H.")
                  out_splitted in
      Ok (py_join newline out_splitted)
  end.

End AAM.

Arguments Shape scalar : clear implicits.
Arguments Image scalar Pixels Mask : clear implicits.
Arguments PCAModel scalar T : clear implicits.
Arguments AAM scalar Pixels Mask Transform Features : clear implicits.
Arguments pyweights scalar : clear implicits.
Arguments eigenvalues {scalar T} _.
Arguments n_active_components {scalar T} _.
Arguments mean {scalar T} _.
Arguments pca_instance {scalar T} _ _.

(** ** A small synthetic model

    Two pyramid levels over binary64 numbers.  The shape models move three
    landmark points along fixed directions, the appearance models do the
    same to four pixel values.  The imaging collaborators only record what
    they are handed, so that a result shows which frame, which landmark
    sets and which flags went into it. *)

Module Toy.

Definition pts : Type := list (list float).

Inductive mask : Type :=
| DenseMask (support : pts) (trilist : option trilist_t)
| PatchMask (centres : pts) (patch_shape : nat * nat).

(** A warp is known by the two landmark sets it was built from. *)
Definition warp : Type := pts * pts.

Definition shape : Type := Shape float.
Definition image : Type := Image float (list float) mask.
Definition model : Type := AAM float (list float) mask warp unit.

(** [p + w * c], point by point. *)
Definition axpy (w : float) (c p : pts) : pts :=
  zip_with (zip_with (λ ci pi, (pi + w * ci)%float)) c p.

Definition combine_points (m : pts) (comps : list pts) (ws : list float) : pts :=
  foldl (λ acc wc, axpy wc.1 wc.2 acc) m (zip ws comps).

Definition combine_pixels (m : list float) (comps : list (list float))
    (ws : list float) : list float :=
  foldl (λ acc wc, zip_with (λ ci pi, (pi + wc.1 * ci)%float) wc.2 acc)
        m (zip ws comps).

(** A linear subspace model; more weights than components is an error. *)
Definition shape_model (m : shape) (comps : list pts) (eigs : list float)
    : PCAModel float shape :=
  {| eigenvalues := eigs;
     n_active_components := length comps;
     mean := m;
     pca_instance := λ ws,
       if decide (length ws ≤ length comps)%nat
       then Ok {| shape_type := shape_type m;
                  points := combine_points (points m) comps ws;
                  trilist_attr := trilist_attr m |}
       else Raise ValueError |}.

Definition appearance_model (m : image) (comps : list (list float))
    (eigs : list float) : PCAModel float image :=
  {| eigenvalues := eigs;
     n_active_components := length comps;
     mean := m;
     pca_instance := λ ws,
       if decide (length ws ≤ length comps)%nat
       then Ok {| pixels := combine_pixels (pixels m) comps ws;
                  mask_attr := mask_attr m;
                  landmarks := landmarks m |}
       else Raise ValueError |}.

Definition build_reference_frame (s : shape) (tl : option trilist_t)
    : result image :=
  Ok {| pixels := [];
        mask_attr := Some (DenseMask (points s) tl);
        landmarks := {[ "source"%string := s ]} |}.

Definition build_patch_reference_frame (s : shape) (ps : nat * nat)
    : result image :=
  Ok {| pixels := [];
        mask_attr := Some (PatchMask (points s) ps);
        landmarks := {[ "source"%string := s ]} |}.

Definition as_unmasked (img : image) (copy : bool) : result image :=
  Ok {| pixels := pixels img; mask_attr := None; landmarks := landmarks img |}.

Definition warp_to_mask (img : image) (m : mask) (t : warp)
    (warp_landmarks : bool) : result image :=
  Ok {| pixels := pixels img;
        mask_attr := Some m;
        landmarks := if warp_landmarks
                     then {[ "source"%string :=
                               {| shape_type := PointCloud;
                                  points := t.1;
                                  trilist_attr := None |} ]}
                     else ∅ |}.

Definition point_warp (a b : shape) : result warp := Ok (points a, points b).

(** A generator that hands out ones and counts its draws. *)
Definition randn (n : nat) (g : nat) : list float * nat :=
  (replicate n 1%float, S g).

Definition triangle : pts :=
  [[0; 0]; [4; 0]; [0; 4]]%float.

Definition mean_shape : shape :=
  {| shape_type := PointCloud; points := triangle; trilist_attr := None |}.

Definition mesh (tl : trilist_t) : shape :=
  {| shape_type := TriMesh; points := triangle; trilist_attr := Some tl |}.

Definition coloured_mesh (tl : trilist_t) : shape :=
  {| shape_type := ColouredTriMesh; points := triangle;
     trilist_attr := Some tl |}.

Definition template (lms : shape) : image :=
  {| pixels := [10; 20; 30; 40]%float;
     mask_attr := Some (DenseMask triangle None);
     landmarks := {[ "source"%string := lms ]} |}.

Definition along_x : pts := [[1; 0]; [1; 0]; [1; 0]]%float.
Definition along_y : pts := [[0; 1]; [0; 1]; [0; 1]]%float.

Definition sm0 : PCAModel float shape :=
  shape_model mean_shape [along_x] [9]%float.
Definition sm1 : PCAModel float shape :=
  shape_model mean_shape [along_x; along_y] [4; 9]%float.
Definition am0 : PCAModel float image :=
  appearance_model (template (mesh [(0, 1, 2)%nat])) [[1; 1; 1; 1]]%float
                   [4]%float.
Definition am1 : PCAModel float image :=
  appearance_model (template (mesh [(0, 1, 2)%nat]))
                   [[1; 1; 1; 1]; [1; 0; 0; -1]]%float [16; 1]%float.

Definition aam_of (c : aam_class) (sms : list (PCAModel float shape))
    (ams : list (PCAModel float image)) : model :=
  {| cls := c; features := tt; n_training_images := 5;
     shape_models := sms; appearance_models := ams;
     transform := point_warp; reference_shape := mean_shape;
     downscale := 2%float; scaled_shape_models := true |}.

Definition aam : model := aam_of AAM_cls [sm0; sm1] [am0; am1].

Definition patch_aam : model :=
  aam_of (PatchBasedAAM_cls (4, 4)%nat) [sm0; sm1] [am0; am1].

(** A dense model whose shapes are meshes while its template landmarks are
    a plain point cloud, and one whose template landmarks are a coloured
    mesh. *)
Definition sm_mesh : PCAModel float shape :=
  shape_model (mesh [(0, 2, 1)%nat]) [along_x] [1]%float.
Definition am_cloud : PCAModel float image :=
  appearance_model (template mean_shape) [[1; 1; 1; 1]]%float [4]%float.
Definition am_coloured : PCAModel float image :=
  appearance_model (template (coloured_mesh [(0, 1, 2)%nat]))
                   [[1; 1; 1; 1]]%float [4]%float.

Definition aam_mesh_shapes : model := aam_of AAM_cls [sm_mesh] [am_cloud].
Definition aam_coloured : model := aam_of AAM_cls [sm0] [am_coloured].

(** The dense frame of the mean shape under the template triangulation. *)
Definition frame1 : image :=
  {| pixels := [];
     mask_attr := Some (DenseMask triangle (Some [(0, 1, 2)%nat]));
     landmarks := {[ "source"%string := mean_shape ]} |}.

(** Whether an array cell starts with the number [x]. *)
Definition first_is (x : float) (o : option (list float)) : bool :=
  match o with
  | Some (y :: _) => PrimFloat.eqb y x
  | _ => false
  end.

(** The two collaborator sets, applied. *)
Definition run_instance (self : model) :=
  instance 0%float PrimFloat.mul PrimFloat.sqrt
           build_reference_frame build_patch_reference_frame
           as_unmasked warp_to_mask self.

Definition run__instance (self : model) :=
  _instance build_reference_frame build_patch_reference_frame
            as_unmasked warp_to_mask self.

Definition run_random_instance (self : model) :=
  random_instance PrimFloat.mul PrimFloat.sqrt
           build_reference_frame build_patch_reference_frame
           as_unmasked warp_to_mask randn self.

(** Lines of a text that is broken by line feeds only. *)
Fixpoint lines_from (s acc : string) : list string :=
  match s with
  | EmptyString => if decide (acc = "") then [] else [acc]
  | String c s' =>
      if decide (c = Ascii.ascii_of_nat 10) then acc :: lines_from s' ""
      else lines_from s' (acc +:+ String c "")
  end.

Definition splitlines (s : string) : list string := lines_from s "".

(** A description of seven lines, as the base class prints for one
    level. *)
Definition description : string :=
  py_join newline
    ["Active Appearance Model"; " - 5 training images.";
     " - PiecewiseAffine Warp."; " - No pyramid used:";
     "   - Feature is no_op with 1 channel per image.";
     "   - Reference frame of length 4 (4 x 1C, 2W x 2H x 1C)";
     "   - 2 shape components (95.00% of variance)"]%string.

Definition patch_aam_3_by_7 : model :=
  aam_of (PatchBasedAAM_cls (3, 7)%nat) [sm0; sm1] [am0; am1].

(** Degenerate models: two eigenvalues on record for one component; a
    template without landmarks; no components at all. *)
Definition sm_short : PCAModel float shape :=
  shape_model mean_shape [along_x] [4; 9]%float.
Definition am_bare : PCAModel float image :=
  appearance_model
    {| pixels := [10; 20; 30; 40]%float;
       mask_attr := Some (DenseMask triangle None);
       landmarks := ∅ |}
    [[1; 1; 1; 1]]%float [4]%float.
Definition sm_none : PCAModel float shape := shape_model mean_shape [] [].
Definition am_none : PCAModel float image :=
  appearance_model (template (mesh [(0, 1, 2)%nat])) [] [].

Definition aam_short : model := aam_of AAM_cls [sm_short] [am0].
Definition aam_bare : model := aam_of AAM_cls [sm0] [am_bare].
Definition aam_none : model := aam_of AAM_cls [sm_none] [am_none].

(** Builders that must not be reached. *)
Definition no_dense_builder (s : shape) (tl : option trilist_t) : result image :=
  Raise TypeError.
Definition no_patch_builder (s : shape) (ps : nat * nat) : result image :=
  Raise TypeError.

End Toy.

(** * Properties *)

Section Properties.

Context {scalar Pixels Mask Transform Features rng : Type}.
Context (zero : scalar) (mul : scalar → scalar → scalar)
        (sqrt : scalar → scalar).
Context (build_reference_frame :
           Shape scalar → option trilist_t → result (Image scalar Pixels Mask)).
Context (build_patch_reference_frame :
           Shape scalar → nat * nat → result (Image scalar Pixels Mask)).
Context (as_unmasked :
           Image scalar Pixels Mask → bool → result (Image scalar Pixels Mask)).
Context (warp_to_mask :
           Image scalar Pixels Mask → Mask → Transform → bool →
           result (Image scalar Pixels Mask)).
Context (randn : nat → rng → list scalar * rng).

Local Abbreviation aam := (AAM scalar Pixels Mask Transform Features).
Local Abbreviation shape := (Shape scalar).
Local Abbreviation image := (Image scalar Pixels Mask).
Local Abbreviation store := (gmap nat (list scalar)).

Local Abbreviation AAM_instance :=
  (instance zero mul sqrt build_reference_frame build_patch_reference_frame
            as_unmasked warp_to_mask).
Local Abbreviation AAM_random_instance :=
  (random_instance mul sqrt build_reference_frame build_patch_reference_frame
                   as_unmasked warp_to_mask randn).
Local Abbreviation AAM__instance :=
  (_instance build_reference_frame build_patch_reference_frame
             as_unmasked warp_to_mask).
Local Abbreviation AAM__build_reference_frame :=
  (_build_reference_frame build_reference_frame build_patch_reference_frame).

Implicit Types (self : aam) (st : store) (w sw aw : pyweights scalar)
               (ws wa x y : list scalar) (L : Z).

(** ** Indexing *)

Lemma py_getitem_nonneg {A} (l : list A) (i : nat) (x : A) :
  l !! i = Some x → py_getitem l (Z.of_nat i) = Ok x.
Proof.
  intros Hx. pose proof (lookup_lt_Some _ _ _ Hx) as Hlt.
  unfold py_getitem. cbn zeta.
  rewrite !(proj2 (Z.ltb_ge (Z.of_nat i) 0)) by lia.
  rewrite (proj2 (Z.leb_gt (Z.of_nat (length l)) (Z.of_nat i))) by lia.
  cbn. by rewrite Nat2Z.id, Hx.
Qed.

Lemma py_getitem_from_end {A} (l : list A) (i : Z) :
  - Z.of_nat (length l) ≤ i < 0 →
  py_getitem l i = py_getitem l (i + Z.of_nat (length l)).
Proof.
  intros [Hlo Hhi]. unfold py_getitem. cbn zeta.
  rewrite (proj2 (Z.ltb_lt i 0)) by lia.
  rewrite !(proj2 (Z.ltb_ge (i + Z.of_nat (length l)) 0)) by lia.
  reflexivity.
Qed.

Lemma py_getitem_last {A} (l : list A) :
  py_getitem l (-1) = py_getitem l (Z.of_nat (length l) - 1).
Proof.
  destruct l as [|a l].
  - reflexivity.
  - rewrite py_getitem_from_end by (cbn [length]; lia).
    by replace (-1 + Z.of_nat (length (a :: l)))
        with (Z.of_nat (length (a :: l)) - 1) by lia.
Qed.

Lemma py_getitem_last_elem {A} (l : list A) :
  py_getitem l (-1) = match last l with
                      | Some x => Ok x
                      | None => Raise IndexError
                      end.
Proof.
  destruct (last l) as [x|] eqn:Hl.
  - rewrite last_lookup in Hl.
    rewrite py_getitem_last.
    assert (0 < length l)%nat
      by (destruct l; [discriminate | cbn; lia]).
    replace (Z.of_nat (length l) - 1) with (Z.of_nat (Nat.pred (length l)))
      by lia.
    by apply py_getitem_nonneg.
  - apply last_None in Hl. by subst l.
Qed.

(** ** Element-wise products *)

Lemma length_sqrt_eigenvalues {T} (m : PCAModel scalar T) (n : nat) :
  length (sqrt_eigenvalues sqrt m n) = (n `min` length (eigenvalues m))%nat.
Proof. unfold sqrt_eigenvalues. by rewrite length_fmap, length_take. Qed.

Lemma np_multiply_same_length x y :
  length x = length y → np_multiply mul x y = Ok (zip_with mul x y).
Proof. intros H. unfold np_multiply. by rewrite bool_decide_eq_true_2. Qed.

Lemma np_imultiply_same_length x y :
  length x = length y → np_imultiply mul x y = Ok (zip_with mul x y).
Proof. intros H. unfold np_imultiply. by rewrite bool_decide_eq_true_2. Qed.

Lemma length_in_std_units {T} (m : PCAModel scalar T) ws :
  (length ws ≤ length (eigenvalues m))%nat →
  length (in_std_units mul sqrt m ws) = length ws.
Proof.
  intros H. unfold in_std_units.
  rewrite length_zip_with, length_fmap, length_take. lia.
Qed.

Lemma in_std_units_lookup {T} (m : PCAModel scalar T) ws (i : nat) a e :
  ws !! i = Some a → eigenvalues m !! i = Some e →
  in_std_units mul sqrt m ws !! i = Some (mul a (sqrt e)).
Proof.
  intros Ha He. unfold in_std_units.
  rewrite lookup_zip_with, Ha. cbn.
  rewrite list_lookup_fmap, lookup_take_lt by (by eapply lookup_lt_Some).
  by rewrite He.
Qed.

(** ** The scaling statements [n = len(w); w *= m.eigenvalues[:n] ** 0.5] *)

Lemma scale_step {T A} (m : PCAModel scalar T) w ws st
    (k : list scalar → M store A) :
  contents st w = Some ws →
  bind (py_len w) (λ n, bind (imul mul w (sqrt_eigenvalues sqrt m n)) k) st =
  match match w with
        | PyList _ => np_multiply mul ws (sqrt_eigenvalues sqrt m (length ws))
        | NdArray _ => np_imultiply mul ws (sqrt_eigenvalues sqrt m (length ws))
        end with
  | Ok v => k v (store_after w v st)
  | Raise e => (Raise e, st)
  end.
Proof.
  destruct w as [l|a]; cbn; intros Hw.
  - injection Hw as ->. unfold bind, ret, lift. cbn.
    by destruct (np_multiply _ _ _).
  - unfold bind, ret, lift, load. rewrite Hw. cbn. rewrite Hw.
    by destruct (np_imultiply _ _ _).
Qed.

Lemma scale_fits {T A} (m : PCAModel scalar T) w ws st
    (k : list scalar → M store A) :
  contents st w = Some ws →
  (length ws ≤ length (eigenvalues m))%nat →
  bind (py_len w) (λ n, bind (imul mul w (sqrt_eigenvalues sqrt m n)) k) st =
  k (in_std_units mul sqrt m ws) (store_after w (in_std_units mul sqrt m ws) st).
Proof.
  intros Hw Hle. rewrite (scale_step m w ws st k Hw).
  assert (length ws = length (sqrt_eigenvalues sqrt m (length ws))) as Hlen
    by (rewrite length_sqrt_eigenvalues; lia).
  destruct w; [rewrite np_multiply_same_length by done
              | rewrite np_imultiply_same_length by done]; reflexivity.
Qed.

(** ** [instance] once the level is resolved *)

Lemma instance_at_level self (sw aw : option (pyweights scalar)) L sm am st :
  py_getitem (shape_models self) L = Ok sm →
  py_getitem (appearance_models self) L = Ok am →
  AAM_instance self sw aw (Some L) st =
  bind (py_len (default (PyList [zero]) sw)) (λ n,
    bind (imul mul (default (PyList [zero]) sw) (sqrt_eigenvalues sqrt sm n))
      (λ v, bind (lift (pca_instance sm v)) (λ si,
        bind (py_len (default (PyList [zero]) aw)) (λ n,
          bind (imul mul (default (PyList [zero]) aw)
                     (sqrt_eigenvalues sqrt am n))
            (λ v, bind (lift (pca_instance am v)) (λ ai,
              lift (AAM__instance self L si ai))))))) st.
Proof.
  intros Hs Ha. unfold instance.
  cbn beta iota zeta delta [default from_option id].
  unfold bind at 1, lift at 1. rewrite Hs.
  unfold bind at 1, lift at 1. rewrite Ha.
  reflexivity.
Qed.

(** C1.  At a level [L] that exists, a shape vector [ws] and an appearance
    vector [wa], each no longer than the eigenvalue sequence of its
    model, are multiplied entry by entry with the square roots of the first
    eigenvalues; the scaled vectors go to the two models' [instance]
    operations and the rendering is built from the two results.  (The
    appearance vector is read when its turn comes, after the shape vector
    has been scaled.) *)
Theorem C1_instance_scales_weights self sw aw L sm am ws wa st :
  py_getitem (shape_models self) L = Ok sm →
  py_getitem (appearance_models self) L = Ok am →
  contents st sw = Some ws →
  (length ws ≤ length (eigenvalues sm))%nat →
  contents (store_after sw (in_std_units mul sqrt sm ws) st) aw = Some wa →
  (length wa ≤ length (eigenvalues am))%nat →
  (AAM_instance self (Some sw) (Some aw) (Some L) st).1 =
    (try shape_instance <- pca_instance sm (in_std_units mul sqrt sm ws);
     try appearance_instance <- pca_instance am (in_std_units mul sqrt am wa);
     AAM__instance self L shape_instance appearance_instance)
  ∧ (∀ (i : nat) a e, ws !! i = Some a → eigenvalues sm !! i = Some e →
       in_std_units mul sqrt sm ws !! i = Some (mul a (sqrt e)))
  ∧ (∀ (i : nat) a e, wa !! i = Some a → eigenvalues am !! i = Some e →
       in_std_units mul sqrt am wa !! i = Some (mul a (sqrt e))).
Proof.
  intros Hs Ha Hws Hks Hwa Hka.
  split; [|split; intros; by apply in_std_units_lookup].
  rewrite (instance_at_level self (Some sw) (Some aw) L sm am st Hs Ha).
  cbn [default].
  rewrite (scale_fits sm sw ws st _ Hws Hks).
  unfold bind at 1, lift at 1.
  destruct (pca_instance sm _) as [si|e]; [|reflexivity].
  rewrite (scale_fits am aw wa _ _ Hwa Hka).
  unfold bind, lift. cbn.
  by destruct (pca_instance am _).
Qed.

(** ** The default coefficient [[0]] *)

Lemma scale_zero {T A} (m : PCAModel scalar T) st (k : list scalar → M store A) :
  (∀ e, head (eigenvalues m) = Some e → mul zero (sqrt e) = zero) →
  ∃ v, (v = [] ∨ v = [zero]) ∧
       bind (py_len (PyList [zero]))
            (λ n, bind (imul mul (PyList [zero]) (sqrt_eigenvalues sqrt m n)) k)
            st = k v st.
Proof.
  intros Hz.
  rewrite (scale_step m (PyList [zero]) [zero] st k eq_refl).
  unfold sqrt_eigenvalues. cbn [length store_after].
  destruct (eigenvalues m) as [|e es]; cbn.
  - exists []. by split; [left|].
  - exists [zero]. split; [by right|].
    rewrite take_0. cbn. rewrite np_multiply_same_length by reflexivity.
    cbn. by rewrite (Hz e eq_refl).
Qed.

(** C2.  With both weight arguments [None], [instance] proceeds exactly as
    for the single zero coefficient [[0]] in both places; when a zero
    coefficient scaled by the first eigenvalue's square root is still zero
    and each model's instance at no weight and at the zero weight is its
    mean, the result is the rendering of the level's mean shape and mean
    appearance, and the store is untouched. *)
Theorem C2_instance_none_is_mean self L sm am st :
  py_getitem (shape_models self) L = Ok sm →
  py_getitem (appearance_models self) L = Ok am →
  (∀ e, head (eigenvalues sm) = Some e → mul zero (sqrt e) = zero) →
  (∀ e, head (eigenvalues am) = Some e → mul zero (sqrt e) = zero) →
  pca_instance sm [] = Ok (mean sm) →
  pca_instance sm [zero] = Ok (mean sm) →
  pca_instance am [] = Ok (mean am) →
  pca_instance am [zero] = Ok (mean am) →
  AAM_instance self None None (Some L) st =
    AAM_instance self (Some (PyList [zero])) (Some (PyList [zero])) (Some L) st
  ∧ AAM_instance self None None (Some L) st =
    (AAM__instance self L (mean sm) (mean am), st).
Proof.
  intros Hs Ha Hzs Hza Hs0 Hs1 Ha0 Ha1. split; [reflexivity|].
  rewrite (instance_at_level self None None L sm am st Hs Ha).
  cbn beta iota zeta delta [default from_option id].
  destruct (scale_zero sm st
              (λ v, bind (lift (pca_instance sm v)) (λ si,
                 bind (py_len (PyList [zero])) (λ n,
                   bind (imul mul (PyList [zero]) (sqrt_eigenvalues sqrt am n))
                     (λ v, bind (lift (pca_instance am v)) (λ ai,
                        lift (AAM__instance self L si ai)))))) Hzs)
    as (vs & Hvs & ->).
  assert (pca_instance sm vs = Ok (mean sm)) as Hm
    by (destruct Hvs; by subst vs).
  unfold bind at 1, lift at 1. rewrite Hm.
  destruct (scale_zero am st
              (λ v, bind (lift (pca_instance am v)) (λ ai,
                 lift (AAM__instance self L (mean sm) ai))) Hza)
    as (va & Hva & ->).
  assert (pca_instance am va = Ok (mean am)) as Hm'
    by (destruct Hva; by subst va).
  unfold bind, lift. by rewrite Hm'.
Qed.

(** ** The synthesis step *)

(** C6.  At a level [L] that exists: the template is the mean image of the
    level's appearance model and [lms] its ['source'] landmarks; with [rf]
    the reference frame, the model's transform is built from the frame's
    ['source'] landmarks and [lms], and the appearance instance, unmasked
    with [copy=False], is warped by it into the frame's mask with
    [warp_landmarks=True]. *)
Theorem C6_synthesis_step self L am lms rf rf_lms mask
    (shape_instance : shape) (appearance_instance : image) :
  py_getitem (appearance_models self) L = Ok am →
  landmarks (mean am) !! "source"%string = Some lms →
  AAM__build_reference_frame self shape_instance lms = Ok rf →
  landmarks rf !! "source"%string = Some rf_lms →
  mask_attr rf = Some mask →
  AAM__instance self L shape_instance appearance_instance =
    (try warp <- transform self rf_lms lms;
     try unmasked <- as_unmasked appearance_instance false;
     warp_to_mask unmasked mask warp true).
Proof.
  intros Ha Hl Hrf Hrl Hm. unfold _instance.
  rewrite Ha. cbn [rbind]. unfold getitem_landmarks at 1. rewrite Hl.
  cbn [rbind]. rewrite Hrf. cbn [rbind].
  unfold getitem_landmarks, getattr_mask. rewrite Hrl, Hm. reflexivity.
Qed.

(** ** The class test of the dense frame *)

Lemma type_eq_true (c d : pyclass) : c = d → type_eq c d = true.
Proof. intros ->. unfold type_eq. by rewrite bool_decide_eq_true_2. Qed.

Lemma type_eq_false (c d : pyclass) : c ≠ d → type_eq c d = false.
Proof. intros H. unfold type_eq. by rewrite bool_decide_eq_false_2. Qed.

Lemma dense_frame_exact self (rs lms : shape) t :
  cls self = AAM_cls → shape_type lms = TriMesh → trilist_attr lms = Some t →
  AAM__build_reference_frame self rs lms = build_reference_frame rs (Some t).
Proof.
  intros Hc Ht Hl. unfold _build_reference_frame, getattr_trilist.
  by rewrite Hc, (type_eq_true _ _ Ht), Hl.
Qed.

Lemma dense_frame_other self (rs lms : shape) :
  cls self = AAM_cls → shape_type lms ≠ TriMesh →
  AAM__build_reference_frame self rs lms = build_reference_frame rs None.
Proof.
  intros Hc Ht. unfold _build_reference_frame.
  by rewrite Hc, (type_eq_false _ _ Ht).
Qed.

(** C10.  In the dense model the frame builder receives a triangulation
    only for landmarks whose class is [TriMesh] itself: for any other
    class, and so for every proper subclass of [TriMesh] whatever
    triangulation the object carries, it is called with [trilist=None];
    this is how [_instance] builds its frame from the template's
    ['source'] landmarks. *)
Theorem C10_exact_type_test self L am (rs lms : shape)
    (shape_instance : shape) (appearance_instance : image) :
  cls self = AAM_cls →
  py_getitem (appearance_models self) L = Ok am →
  landmarks (mean am) !! "source"%string = Some lms →
  (proper_subclass (shape_type lms) TriMesh →
     AAM__build_reference_frame self rs lms = build_reference_frame rs None
     ∧ AAM__instance self L shape_instance appearance_instance =
       spec_synthesize as_unmasked warp_to_mask
         (λ s _, build_reference_frame s None)
         self L shape_instance appearance_instance)
  ∧ (∀ t, AAM__build_reference_frame self rs lms
            = build_reference_frame rs (Some t) →
          build_reference_frame rs (Some t) ≠ build_reference_frame rs None →
          shape_type lms = TriMesh).
Proof.
  intros Hc Ha Hl. split.
  - intros [_ Hne]. split; [by apply dense_frame_other|].
    unfold _instance, spec_synthesize. rewrite Ha. cbn [rbind].
    unfold getitem_landmarks at 1 3. rewrite Hl. cbn [rbind].
    by rewrite (dense_frame_other self shape_instance lms Hc Hne).
  - intros t Heq Hdiff.
    destruct (decide (shape_type lms = TriMesh)) as [|Hne]; [done|].
    rewrite (dense_frame_other self rs lms Hc Hne) in Heq. by symmetry in Heq.
Qed.

(** C3 (as the code has it).  In the dense model the frame is built from the
    synthesized shape instance, and its triangulation is the one of the
    appearance template's ['source'] landmarks when these are exactly a
    [TriMesh]; for any other landmark class the builder is called without
    a triangulation, which is not an error.  The class and triangulation
    of the shape instance play no part. *)
Theorem C3_frame_uses_template_triangulation self L am lms
    (shape_instance : shape) (appearance_instance : image) :
  cls self = AAM_cls →
  py_getitem (appearance_models self) L = Ok am →
  landmarks (mean am) !! "source"%string = Some lms →
  AAM__instance self L shape_instance appearance_instance =
    spec_synthesize as_unmasked warp_to_mask
      (dense_frame build_reference_frame)
      self L shape_instance appearance_instance
  ∧ (∀ t, shape_type lms = TriMesh → trilist_attr lms = Some t →
       AAM__build_reference_frame self shape_instance lms =
         build_reference_frame shape_instance (Some t))
  ∧ (shape_type lms ≠ TriMesh →
       AAM__build_reference_frame self shape_instance lms =
         build_reference_frame shape_instance None).
Proof.
  intros Hc Ha Hl. split; [|split].
  - unfold _instance, spec_synthesize. rewrite Ha. cbn [rbind].
    unfold getitem_landmarks at 1 3. rewrite Hl. cbn [rbind].
    replace (AAM__build_reference_frame self shape_instance lms)
      with (dense_frame build_reference_frame shape_instance lms);
      [reflexivity|].
    unfold dense_frame, _build_reference_frame. rewrite Hc.
    destruct (type_eq _ _); [|reflexivity].
    by destruct (getattr_trilist lms).
  - intros t Ht Htl. by apply dense_frame_exact.
  - intros Hne. by apply dense_frame_other.
Qed.

(** ** Level selection *)

Lemma _instance_same_level self L L' :
  py_getitem (appearance_models self) L = py_getitem (appearance_models self) L' →
  AAM__instance self L = AAM__instance self L'.
Proof. intros H. unfold _instance. by rewrite H. Qed.

Lemma instance_same_level self (sw aw : option (pyweights scalar)) L L' st :
  py_getitem (shape_models self) L = py_getitem (shape_models self) L' →
  py_getitem (appearance_models self) L = py_getitem (appearance_models self) L' →
  AAM_instance self sw aw (Some L) st = AAM_instance self sw aw (Some L') st.
Proof.
  intros Hs Ha. unfold instance.
  cbn beta iota zeta delta [default from_option id].
  by rewrite Hs, Ha, (_instance_same_level self L L' Ha).
Qed.

Lemma _instance_with_model self L am :
  py_getitem (appearance_models self) L = Ok am →
  AAM__instance self L =
    synthesize_with build_reference_frame build_patch_reference_frame
                    as_unmasked warp_to_mask self am.
Proof. intros Ha. unfold _instance, synthesize_with. by rewrite Ha. Qed.

Lemma instance_with_models self (sw aw : option (pyweights scalar)) L sm am st :
  py_getitem (shape_models self) L = Ok sm →
  py_getitem (appearance_models self) L = Ok am →
  AAM_instance self sw aw (Some L) st =
    instance_with zero mul sqrt build_reference_frame
                  build_patch_reference_frame as_unmasked warp_to_mask
                  self sm am sw aw st.
Proof.
  intros Hs Ha. unfold instance, instance_with.
  cbn beta iota zeta delta [default from_option id].
  unfold bind at 1, lift at 1. rewrite Hs.
  unfold bind at 1, lift at 1. rewrite Ha.
  by rewrite (_instance_with_model self L am Ha).
Qed.

Lemma random_instance_with_models self L sm am (g : rng) :
  py_getitem (shape_models self) L = Ok sm →
  py_getitem (appearance_models self) L = Ok am →
  AAM_random_instance self (Some L) g =
    random_instance_with mul sqrt build_reference_frame
                         build_patch_reference_frame as_unmasked warp_to_mask
                         randn self sm am g.
Proof.
  intros Hs Ha. unfold random_instance, random_instance_with.
  cbn beta iota zeta delta [default from_option id].
  unfold bind at 1, lift at 1. rewrite Hs.
  unfold bind at 1, lift at 1. rewrite Ha.
  by rewrite (_instance_with_model self L am Ha).
Qed.

(** C8.  When the two model lists have the same length, level [-1] picks
    the last model of each list, [instance] at [-1] scales, samples and
    synthesizes with exactly these two models, and it is [instance] at
    [n_levels - 1], for all weight arguments and stores; with no level at
    all it raises [IndexError]; an omitted level means [-1] in [instance]
    and in [random_instance], which at [-1] draws for and synthesizes with
    the last two models as well. *)
Theorem C8_level_minus_one self (sw aw : option (pyweights scalar)) st (g : rng) :
  length (shape_models self) = length (appearance_models self) →
  AAM_instance self sw aw (Some (-1)) st =
    AAM_instance self sw aw (Some (Z.of_nat (n_levels self) - 1)) st
  ∧ py_getitem (shape_models self) (-1) =
      match last (shape_models self) with
      | Some sm => Ok sm
      | None => Raise IndexError
      end
  ∧ py_getitem (appearance_models self) (-1) =
      match last (appearance_models self) with
      | Some am => Ok am
      | None => Raise IndexError
      end
  ∧ AAM_instance self sw aw None st = AAM_instance self sw aw (Some (-1)) st
  ∧ AAM_random_instance self None g = AAM_random_instance self (Some (-1)) g
  ∧ (∀ sm am, last (shape_models self) = Some sm →
       last (appearance_models self) = Some am →
       AAM_instance self sw aw (Some (-1)) st =
         instance_with zero mul sqrt build_reference_frame
                       build_patch_reference_frame as_unmasked warp_to_mask
                       self sm am sw aw st
       ∧ AAM_instance self sw aw None st =
         instance_with zero mul sqrt build_reference_frame
                       build_patch_reference_frame as_unmasked warp_to_mask
                       self sm am sw aw st
       ∧ AAM_random_instance self None g =
         random_instance_with mul sqrt build_reference_frame
                              build_patch_reference_frame as_unmasked
                              warp_to_mask randn self sm am g)
  ∧ (n_levels self = 0%nat →
       AAM_instance self sw aw (Some (-1)) st = (Raise IndexError, st)
       ∧ AAM_random_instance self (Some (-1)) g = (Raise IndexError, g)).
Proof.
  intros Hlen.
  split.
  { apply instance_same_level; unfold n_levels.
    - rewrite <- Hlen. apply py_getitem_last.
    - apply py_getitem_last. }
  split; [apply py_getitem_last_elem|].
  split; [apply py_getitem_last_elem|].
  split; [reflexivity|]. split; [reflexivity|]. split.
  - intros sm am Hls Hla.
    assert (py_getitem (shape_models self) (-1) = Ok sm) as Hs
      by (by rewrite py_getitem_last_elem, Hls).
    assert (py_getitem (appearance_models self) (-1) = Ok am) as Ha
      by (by rewrite py_getitem_last_elem, Hla).
    split; [by apply instance_with_models|].
    split; [by apply (instance_with_models self sw aw (-1))|].
    by apply (random_instance_with_models self (-1)).
  - unfold n_levels. intros Hn.
    assert (shape_models self = []) as Hs
      by (apply length_zero_iff_nil; lia).
    assert (appearance_models self = []) as Ha
      by (by apply length_zero_iff_nil).
    unfold instance, random_instance. rewrite Hs. by split.
Qed.

(** ** The patch-based variant *)

Lemma bind_ext {S A B} (m : M S A) (k k' : A → M S B) s :
  (∀ a s', k a s' = k' a s') → bind m k s = bind m k' s.
Proof. intros H. unfold bind. destruct (m s) as [[a|e] s']; [apply H | done]. Qed.

Lemma _instance_spec (frame_of : shape → shape → result image) self L
    (si : shape) (ai : image) :
  (∀ rs lms, AAM__build_reference_frame self rs lms = frame_of rs lms) →
  AAM__instance self L si ai =
    spec_synthesize as_unmasked warp_to_mask frame_of self L si ai.
Proof.
  intros H. unfold _instance, spec_synthesize.
  destruct (py_getitem _ _) as [am|]; [cbn [rbind]|done].
  destruct (getitem_landmarks _ _) as [lms|]; [cbn [rbind]|done].
  by rewrite H.
Qed.

Lemma instance_spec (frame_of : shape → shape → result image) self
    (sw aw : option (pyweights scalar)) (level : option Z) st :
  (∀ rs lms, AAM__build_reference_frame self rs lms = frame_of rs lms) →
  AAM_instance self sw aw level st =
    spec_instance zero mul sqrt as_unmasked warp_to_mask frame_of
                  self sw aw level st.
Proof.
  intros H. unfold instance, spec_instance.
  repeat (apply bind_ext; intros ? ?).
  unfold lift. by rewrite (_instance_spec frame_of).
Qed.

(** C9.  [instance] of either class is one and the same computation
    (default coefficients, scaling by eigenvalue square roots, subspace
    sampling, warp construction, resampling) around a reference-frame
    strategy; the patch-based class differs from the dense one only in
    that strategy, which builds the patch frame from the shape instance
    and the stored [patch_shape] and does not look at the template
    landmarks. *)
Theorem C9_patch_based_differs_in_frame_only self
    (sw aw : option (pyweights scalar)) (level : option Z) st :
  (cls self = AAM_cls →
     AAM_instance self sw aw level st =
       spec_instance zero mul sqrt as_unmasked warp_to_mask
         (dense_frame build_reference_frame) self sw aw level st)
  ∧ (∀ patch_shape, cls self = PatchBasedAAM_cls patch_shape →
       AAM_instance self sw aw level st =
         spec_instance zero mul sqrt as_unmasked warp_to_mask
           (patch_frame build_patch_reference_frame patch_shape)
           self sw aw level st
       ∧ ∀ rs lms, AAM__build_reference_frame self rs lms =
                     build_patch_reference_frame rs patch_shape).
Proof.
  split.
  - intros Hc. apply instance_spec. intros rs lms.
    unfold dense_frame, _build_reference_frame. rewrite Hc.
    destruct (type_eq _ _); [|reflexivity].
    by destruct (getattr_trilist lms).
  - intros ps Hc.
    assert (∀ rs lms, AAM__build_reference_frame self rs lms =
                        build_patch_reference_frame rs ps) as Hf
      by (intros; unfold _build_reference_frame; by rewrite Hc).
    split; [|exact Hf]. by apply instance_spec.
Qed.

(** ** Random instances *)

(** C7.  At a level [L] that exists, [random_instance] draws a vector of
    [n_active_components] numbers for the shape model, then one for the
    appearance model, multiplies each entry by the square root of the
    eigenvalue of the same index, passes the scaled vectors to the two
    models' [instance] operations and renders the two results with
    [_instance]: it returns what [instance] returns on the two drawn
    vectors.  (That the numbers are standard normal is the generator's
    business; active components are taken not to exceed the eigenvalues
    on record.) *)
Theorem C7_random_instance self L sm am (g g1 g2 : rng) zs za :
  py_getitem (shape_models self) L = Ok sm →
  py_getitem (appearance_models self) L = Ok am →
  randn (n_active_components sm) g = (zs, g1) →
  length zs = n_active_components sm →
  randn (n_active_components am) g1 = (za, g2) →
  length za = n_active_components am →
  (n_active_components sm ≤ length (eigenvalues sm))%nat →
  (n_active_components am ≤ length (eigenvalues am))%nat →
  (AAM_random_instance self (Some L) g).1 =
    (try shape_instance <- pca_instance sm (in_std_units mul sqrt sm zs);
     try appearance_instance <- pca_instance am (in_std_units mul sqrt am za);
     AAM__instance self L shape_instance appearance_instance)
  ∧ (∀ (i : nat) z e, zs !! i = Some z → eigenvalues sm !! i = Some e →
       in_std_units mul sqrt sm zs !! i = Some (mul z (sqrt e)))
  ∧ (∀ (i : nat) z e, za !! i = Some z → eigenvalues am !! i = Some e →
       in_std_units mul sqrt am za !! i = Some (mul z (sqrt e)))
  ∧ (∀ st, (AAM_random_instance self (Some L) g).1 =
           (AAM_instance self (Some (PyList zs)) (Some (PyList za))
                         (Some L) st).1).
Proof.
  intros Hs Ha Hzs Hls Hza Hla Hns Hna.
  assert ((AAM_random_instance self (Some L) g).1 =
    (try shape_instance <- pca_instance sm (in_std_units mul sqrt sm zs);
     try appearance_instance <- pca_instance am (in_std_units mul sqrt am za);
     AAM__instance self L shape_instance appearance_instance)) as Hr.
  { unfold random_instance.
    cbn beta iota zeta delta [default from_option id].
    unfold bind at 1, lift at 1. rewrite Hs.
    unfold bind at 1, lift at 1. rewrite Ha.
    unfold bind at 1, np_random_randn at 1. rewrite Hzs.
    unfold bind at 1, lift at 1.
    rewrite np_multiply_same_length
      by (rewrite length_sqrt_eigenvalues; lia).
    unfold in_std_units. rewrite Hls, Hla.
    unfold bind at 1, lift at 1. unfold sqrt_eigenvalues.
    destruct (pca_instance sm _) as [si|e]; [|reflexivity].
    unfold bind at 1, np_random_randn at 1. rewrite Hza.
    unfold bind at 1, lift at 1.
    rewrite np_multiply_same_length
      by (rewrite length_fmap, length_take; lia).
    unfold bind, lift. cbn.
    by destruct (pca_instance am _). }
  split; [exact Hr|].
  split; [intros; by apply in_std_units_lookup|].
  split; [intros; by apply in_std_units_lookup|].
  intros st. rewrite Hr.
  rewrite (instance_at_level self _ _ L sm am st Hs Ha).
  cbn beta iota zeta delta [default from_option id].
  rewrite (scale_fits sm (PyList zs) zs st _ eq_refl) by lia.
  unfold bind at 1, lift at 1.
  destruct (pca_instance sm _) as [si|e]; [|reflexivity].
  rewrite (scale_fits am (PyList za) za _ _ eq_refl) by lia.
  unfold bind, lift. cbn.
  by destruct (pca_instance am _).
Qed.

(** ** Vectors longer than the eigenvalue sequence *)

Lemma np_multiply_mismatch x y :
  length x ≠ length y → length x ≠ 1%nat → length y ≠ 1%nat →
  np_multiply mul x y = Raise ValueError.
Proof.
  intros Hne Hx Hy. unfold np_multiply.
  rewrite bool_decide_eq_false_2 by done.
  destruct x as [|a [|a' x]], y as [|b [|b' y]]; cbn in *; done.
Qed.

Lemma np_imultiply_mismatch x y :
  length x ≠ length y → length y ≠ 1%nat →
  np_imultiply mul x y = Raise ValueError.
Proof.
  intros Hne Hy. unfold np_imultiply.
  rewrite bool_decide_eq_false_2 by done.
  destruct y as [|b [|b' y]]; cbn in *; done.
Qed.

Lemma np_multiply_scalar x b :
  np_multiply mul x [b] = Ok ((λ a, mul a b) <$> x).
Proof.
  unfold np_multiply. case_bool_decide as Hl.
  - destruct x as [|a [|]]; cbn in Hl; try done.
  - destruct x as [|a [|a' x]]; cbn in *; done.
Qed.

Lemma np_imultiply_scalar x b :
  np_imultiply mul x [b] = Ok ((λ a, mul a b) <$> x).
Proof.
  unfold np_imultiply. case_bool_decide as Hl; [|done].
  destruct x as [|a [|]]; cbn in Hl; try done.
Qed.

Lemma instance_by_scaled_weights self L sm am sw ws st :
  py_getitem (shape_models self) L = Ok sm →
  py_getitem (appearance_models self) L = Ok am →
  contents st sw = Some ws →
  (∀ e (other : option (pyweights scalar)),
     scaled_weights mul sqrt sm sw ws = Raise e →
     AAM_instance self (Some sw) other (Some L) st = (Raise e, st))
  ∧ (∀ aw vs wa, scaled_weights mul sqrt sm sw ws = Ok vs →
       contents (store_after sw vs st) aw = Some wa →
       (AAM_instance self (Some sw) (Some aw) (Some L) st).1 =
         (try shape_instance <- pca_instance sm vs;
          try va <- scaled_weights mul sqrt am aw wa;
          try appearance_instance <- pca_instance am va;
          AAM__instance self L shape_instance appearance_instance)).
Proof.
  intros Hs Ha Hws. split.
  - intros e other He.
    rewrite (instance_at_level self (Some sw) other L sm am st Hs Ha).
    cbn beta iota zeta delta [default from_option id].
    rewrite (scale_step sm sw ws st _ Hws).
    fold (scaled_weights mul sqrt sm sw ws). by rewrite He.
  - intros aw vs wa Hvs Hwa.
    rewrite (instance_at_level self (Some sw) (Some aw) L sm am st Hs Ha).
    cbn beta iota zeta delta [default from_option id].
    rewrite (scale_step sm sw ws st _ Hws).
    fold (scaled_weights mul sqrt sm sw ws). rewrite Hvs.
    unfold bind at 1, lift at 1.
    destruct (pca_instance sm vs) as [si|]; [cbn [rbind]|done].
    rewrite (scale_step am aw wa _ _ Hwa).
    fold (scaled_weights mul sqrt am aw wa).
    destruct (scaled_weights mul sqrt am aw wa) as [va|]; [cbn [rbind]|done].
    unfold bind, lift. by destruct (pca_instance am va).
Qed.

Lemma scaled_weights_too_long {T} (m : PCAModel scalar T) w ws :
  (length (eigenvalues m) < length ws)%nat →
  (∀ e, eigenvalues m = [e] →
     scaled_weights mul sqrt m w ws = Ok ((λ a, mul a (sqrt e)) <$> ws))
  ∧ (length ws = 1%nat → (∃ l, w = PyList l) →
     scaled_weights mul sqrt m w ws = Ok [])
  ∧ (length (eigenvalues m) ≠ 1%nat →
     (length ws ≠ 1%nat ∨ ∃ a, w = NdArray a) →
     scaled_weights mul sqrt m w ws = Raise ValueError).
Proof.
  intros Hlt.
  assert (length (sqrt_eigenvalues sqrt m (length ws))
          = length (eigenvalues m)) as Hl
    by (rewrite length_sqrt_eigenvalues; lia).
  split; [|split].
  - intros e He. unfold scaled_weights, sqrt_eigenvalues. rewrite He.
    rewrite He in Hlt. cbn in Hlt.
    destruct ws as [|a ws]; [cbn in Hlt; lia|].
    cbn [length take fmap list_fmap]. rewrite take_nil.
    destruct w; [apply np_multiply_scalar | apply np_imultiply_scalar].
  - intros Hk [l ->]. unfold scaled_weights, sqrt_eigenvalues.
    destruct (eigenvalues m) as [|e es]; [|cbn in Hlt; lia].
    by destruct ws as [|a [|a' ws]].
  - intros Hn1 Hk. unfold scaled_weights. destruct w as [l|a].
    + rewrite np_multiply_mismatch; [done|lia| |lia].
      destruct Hk as [?|[a ?]]; [done|discriminate].
    + rewrite np_imultiply_mismatch; [done|lia|lia].
Qed.

(** C4 (as the code has it).  [instance] does with a weights vector what
    the scaling statement makes of it: a failure of the shape scaling is
    raised before anything is written, a failure of the appearance
    scaling once the shape instance exists, and otherwise the scaled
    vectors go to the models.  For a vector longer than the eigenvalue
    sequence of its model, shape or appearance, the scaling does one of
    three things.  With exactly one eigenvalue every entry is multiplied
    by its square root and the vector keeps its full length.  A Python
    list of one number against a model without eigenvalues becomes the
    empty vector, the one case in which components are dropped.  In
    every other case, two or more eigenvalues, or none against an
    ndarray or against two or more weights, [ValueError] is raised. *)
Theorem C4_vectors_longer_than_eigenvalues self L sm am sw ws st :
  py_getitem (shape_models self) L = Ok sm →
  py_getitem (appearance_models self) L = Ok am →
  contents st sw = Some ws →
  (∀ e (other : option (pyweights scalar)),
     scaled_weights mul sqrt sm sw ws = Raise e →
     AAM_instance self (Some sw) other (Some L) st = (Raise e, st))
  ∧ (∀ aw vs wa, scaled_weights mul sqrt sm sw ws = Ok vs →
       contents (store_after sw vs st) aw = Some wa →
       (AAM_instance self (Some sw) (Some aw) (Some L) st).1 =
         (try shape_instance <- pca_instance sm vs;
          try va <- scaled_weights mul sqrt am aw wa;
          try appearance_instance <- pca_instance am va;
          AAM__instance self L shape_instance appearance_instance))
  ∧ (∀ T (m : PCAModel scalar T) w v,
       (length (eigenvalues m) < length v)%nat →
       (∀ e, eigenvalues m = [e] →
          scaled_weights mul sqrt m w v = Ok ((λ a, mul a (sqrt e)) <$> v)
          ∧ length ((λ a, mul a (sqrt e)) <$> v) = length v)
       ∧ (length v = 1%nat → (∃ l, w = PyList l) →
          scaled_weights mul sqrt m w v = Ok [])
       ∧ (length (eigenvalues m) ≠ 1%nat →
          (length v ≠ 1%nat ∨ ∃ a, w = NdArray a) →
          scaled_weights mul sqrt m w v = Raise ValueError)).
Proof.
  intros Hs Ha Hws.
  destruct (instance_by_scaled_weights self L sm am sw ws st Hs Ha Hws)
    as [H1 H2].
  split; [exact H1|]. split; [exact H2|].
  intros T m w v Hlt.
  destruct (scaled_weights_too_long m w v Hlt) as (Hone & Hnone & Hbad).
  split; [|by split].
  intros e He. split; [by apply Hone | by rewrite length_fmap].
Qed.

(** ** What a call leaves in the store *)

Lemma instance_writes_shape_array self L sm am (a : nat) ws st :
  py_getitem (shape_models self) L = Ok sm →
  py_getitem (appearance_models self) L = Ok am →
  st !! a = Some ws →
  (length ws ≤ length (eigenvalues sm))%nat →
  (AAM_instance self (Some (NdArray a)) None (Some L) st).2 =
    <[a := in_std_units mul sqrt sm ws]> st.
Proof.
  intros Hs Ha Hws Hks.
  rewrite (instance_at_level self (Some (NdArray a)) None L sm am st Hs Ha).
  cbn beta iota zeta delta [default from_option id].
  rewrite (scale_fits sm (NdArray a) ws st _ Hws Hks).
  cbn [store_after].
  unfold bind at 1, lift at 1.
  destruct (pca_instance sm _) as [si|err]; [|reflexivity].
  rewrite (scale_step am (PyList [zero]) [zero] _ _ eq_refl).
  destruct (np_multiply _ _ _) as [v|err]; [|reflexivity].
  cbn [store_after]. unfold bind, lift.
  by destruct (pca_instance am v).
Qed.

(** * Further properties of the module *)

(** ** Levels *)

Lemma py_getitem_raises {A} (l : list A) (i : Z) e :
  py_getitem l i = Raise e → e = IndexError.
Proof.
  unfold py_getitem. cbn zeta.
  destruct (_ || _); [by intros [= <-]|].
  destruct (l !! _); [done | by intros [= <-]].
Qed.

Lemma py_getitem_out_of_range {A} (l : list A) (i : Z) :
  ¬ (- Z.of_nat (length l) ≤ i < Z.of_nat (length l)) →
  py_getitem l i = Raise IndexError.
Proof.
  intros Hout. unfold py_getitem. cbn zeta.
  destruct (Z.ltb_spec i 0) as [Hneg|Hpos].
  - rewrite (proj2 (Z.ltb_lt (i + Z.of_nat (length l)) 0)) by lia. done.
  - rewrite (proj2 (Z.ltb_ge i 0)) by lia.
    rewrite (proj2 (Z.leb_le (Z.of_nat (length l)) i)) by lia. done.
Qed.

Lemma py_getitem_in_range {A} (l : list A) (i : Z) :
  - Z.of_nat (length l) ≤ i < Z.of_nat (length l) →
  ∃ elt : A, py_getitem l i = Ok elt.
Proof.
  intros Hin.
  destruct (Z.ltb_spec i 0) as [Hneg|Hpos].
  - rewrite py_getitem_from_end by lia.
    destruct (lookup_lt_is_Some_2 l (Z.to_nat (i + Z.of_nat (length l))))
      as [elt Hx]; [lia|].
    exists elt. rewrite <- (Z2Nat.id (i + Z.of_nat (length l))) by lia.
    by apply py_getitem_nonneg.
  - destruct (lookup_lt_is_Some_2 l (Z.to_nat i)) as [elt Hx]; [lia|].
    exists elt. rewrite <- (Z2Nat.id i) by lia.
    by apply py_getitem_nonneg.
Qed.

(** X1.  A level outside the shape-model list or outside the
    appearance-model list makes [instance] and [random_instance] raise
    [IndexError] before anything else happens: no array is written and
    no number is drawn. *)
Theorem X1_level_out_of_range self (sw aw : option (pyweights scalar))
    L st (g : rng) :
  ¬ (- Z.of_nat (length (shape_models self)) ≤ L
     < Z.of_nat (length (shape_models self)))
  ∨ ¬ (- Z.of_nat (length (appearance_models self)) ≤ L
       < Z.of_nat (length (appearance_models self))) →
  AAM_instance self sw aw (Some L) st = (Raise IndexError, st)
  ∧ AAM_random_instance self (Some L) g = (Raise IndexError, g).
Proof.
  intros Hout.
  assert (py_getitem (shape_models self) L = Raise IndexError
          ∨ ∃ sm, py_getitem (shape_models self) L = Ok sm
                  ∧ py_getitem (appearance_models self) L = Raise IndexError)
    as Hcase.
  { destruct (py_getitem (shape_models self) L) as [sm|e] eqn:Hs.
    - right. exists sm. split; [done|].
      destruct Hout as [Hout|Hout]; [|by apply py_getitem_out_of_range].
      apply py_getitem_out_of_range in Hout. congruence.
    - left. by rewrite (py_getitem_raises _ _ _ Hs). }
  unfold instance, random_instance.
  cbn beta iota zeta delta [default from_option id].
  destruct Hcase as [Hs|(sm & Hs & Ha)].
  - unfold bind at 1 12, lift at 1 7. by rewrite Hs.
  - unfold bind at 1 12, lift at 1 7. rewrite Hs.
    unfold bind at 1 11, lift at 1 6. by rewrite Ha.
Qed.

(** X2.  When the two model lists have the same length, a level selects a
    pair of models exactly when it lies between [-n_levels] and
    [n_levels - 1]. *)
Theorem X2_valid_levels self L :
  length (shape_models self) = length (appearance_models self) →
  (∃ sm am, py_getitem (shape_models self) L = Ok sm
            ∧ py_getitem (appearance_models self) L = Ok am)
  ↔ - Z.of_nat (n_levels self) ≤ L < Z.of_nat (n_levels self).
Proof.
  intros Hlen. unfold n_levels. split.
  - intros (sm & am & _ & Ha).
    destruct (decide (- Z.of_nat (length (appearance_models self)) ≤ L
                      < Z.of_nat (length (appearance_models self))))
      as [|Hout]; [done|].
    apply py_getitem_out_of_range in Hout. congruence.
  - intros Hin.
    destruct (py_getitem_in_range (shape_models self) L) as [sm Hs];
      [by rewrite Hlen|].
    destruct (py_getitem_in_range (appearance_models self) L) as [am Ha];
      [done|].
    by exists sm, am.
Qed.

Lemma random_instance_same_level self L L' (g : rng) :
  py_getitem (shape_models self) L = py_getitem (shape_models self) L' →
  py_getitem (appearance_models self) L = py_getitem (appearance_models self) L' →
  AAM_random_instance self (Some L) g = AAM_random_instance self (Some L') g.
Proof.
  intros Hs Ha. unfold random_instance.
  cbn beta iota zeta delta [default from_option id].
  by rewrite Hs, Ha, (_instance_same_level self L L' Ha).
Qed.

(** X3.  When the two model lists have the same length, every negative
    level [L] from [-n_levels] on stands for level [n_levels + L]:
    [instance], [random_instance] and the synthesis step do the same at
    both. *)
Theorem X3_negative_levels self (sw aw : option (pyweights scalar))
    L st (g : rng) :
  length (shape_models self) = length (appearance_models self) →
  - Z.of_nat (n_levels self) ≤ L < 0 →
  AAM_instance self sw aw (Some L) st =
    AAM_instance self sw aw (Some (Z.of_nat (n_levels self) + L)) st
  ∧ AAM_random_instance self (Some L) g =
    AAM_random_instance self (Some (Z.of_nat (n_levels self) + L)) g
  ∧ AAM__instance self L = AAM__instance self (Z.of_nat (n_levels self) + L).
Proof.
  unfold n_levels. intros Hlen Hin.
  assert (py_getitem (shape_models self) L =
          py_getitem (shape_models self)
            (Z.of_nat (length (appearance_models self)) + L)) as Hs.
  { rewrite py_getitem_from_end by lia. f_equal. lia. }
  assert (py_getitem (appearance_models self) L =
          py_getitem (appearance_models self)
            (Z.of_nat (length (appearance_models self)) + L)) as Ha.
  { rewrite py_getitem_from_end by lia. f_equal. lia. }
  split; [by apply instance_same_level|].
  split; [by apply random_instance_same_level|].
  by apply _instance_same_level.
Qed.

(** ** What a call writes *)

Lemma instance_lists_pipeline self (ls la : option (list scalar))
    (level : option Z) st :
  AAM_instance self (PyList <$> ls) (PyList <$> la) level st =
    (try sm <- py_getitem (shape_models self) (default default_level level);
     try am <- py_getitem (appearance_models self)
                          (default default_level level);
     try shape_weights <-
       np_multiply mul (default [zero] ls)
         (sqrt_eigenvalues sqrt sm (length (default [zero] ls)));
     try shape_instance <- pca_instance sm shape_weights;
     try appearance_weights <-
       np_multiply mul (default [zero] la)
         (sqrt_eigenvalues sqrt am (length (default [zero] la)));
     try appearance_instance <- pca_instance am appearance_weights;
     AAM__instance self (default default_level level)
                   shape_instance appearance_instance,
     st).
Proof.
  unfold instance.
  unfold bind at 1, lift at 1.
  destruct (py_getitem (shape_models self) _) as [sm|]; [cbn [rbind]|done].
  unfold bind at 1, lift at 1.
  destruct (py_getitem (appearance_models self) _) as [am|];
    [cbn [rbind]|done].
  rewrite (scale_step sm (default (PyList [zero]) (PyList <$> ls))
             (default [zero] ls) st) by (by destruct ls).
  replace (match default (PyList [zero]) (PyList <$> ls) with
           | PyList _ =>
               np_multiply mul (default [zero] ls)
                 (sqrt_eigenvalues sqrt sm (length (default [zero] ls)))
           | NdArray _ =>
               np_imultiply mul (default [zero] ls)
                 (sqrt_eigenvalues sqrt sm (length (default [zero] ls)))
           end)
    with (np_multiply mul (default [zero] ls)
            (sqrt_eigenvalues sqrt sm (length (default [zero] ls))))
    by (by destruct ls).
  destruct (np_multiply mul (default [zero] ls) _) as [v|]; [cbn [rbind]|done].
  replace (store_after (default (PyList [zero]) (PyList <$> ls)) v st)
    with st by (by destruct ls).
  unfold bind at 1, lift at 1.
  destruct (pca_instance sm v) as [si|]; [cbn [rbind]|done].
  rewrite (scale_step am (default (PyList [zero]) (PyList <$> la))
             (default [zero] la) st) by (by destruct la).
  replace (match default (PyList [zero]) (PyList <$> la) with
           | PyList _ =>
               np_multiply mul (default [zero] la)
                 (sqrt_eigenvalues sqrt am (length (default [zero] la)))
           | NdArray _ =>
               np_imultiply mul (default [zero] la)
                 (sqrt_eigenvalues sqrt am (length (default [zero] la)))
           end)
    with (np_multiply mul (default [zero] la)
            (sqrt_eigenvalues sqrt am (length (default [zero] la))))
    by (by destruct la).
  destruct (np_multiply mul (default [zero] la) _) as [v'|]; [cbn [rbind]|done].
  replace (store_after (default (PyList [zero]) (PyList <$> la)) v' st)
    with st by (by destruct la).
  unfold bind, lift.
  by destruct (pca_instance am v').
Qed.

(** X5.  On Python lists (or omitted weights) [instance] is a function of
    its arguments alone: it reads nothing from the store, writes nothing,
    and its result is the plain chain of level lookup, scaling, sampling
    and synthesis. *)
Theorem X5_instance_on_lists self (ls la : option (list scalar))
    (level : option Z) st st' :
  (AAM_instance self (PyList <$> ls) (PyList <$> la) level st).2 = st
  ∧ (AAM_instance self (PyList <$> ls) (PyList <$> la) level st).1 =
    (AAM_instance self (PyList <$> ls) (PyList <$> la) level st').1
  ∧ (AAM_instance self (PyList <$> ls) (PyList <$> la) level st).1 =
    (try sm <- py_getitem (shape_models self) (default default_level level);
     try am <- py_getitem (appearance_models self)
                          (default default_level level);
     try shape_weights <-
       np_multiply mul (default [zero] ls)
         (sqrt_eigenvalues sqrt sm (length (default [zero] ls)));
     try shape_instance <- pca_instance sm shape_weights;
     try appearance_weights <-
       np_multiply mul (default [zero] la)
         (sqrt_eigenvalues sqrt am (length (default [zero] la)));
     try appearance_instance <- pca_instance am appearance_weights;
     AAM__instance self (default default_level level)
                   shape_instance appearance_instance).
Proof. by rewrite !instance_lists_pipeline. Qed.

(** X6.  A call that fails after the scaling has still changed the
    caller's array: when the shape model rejects the scaled vector,
    [instance] raises the model's exception and the array passed as
    shape weights holds the scaled values; the appearance weights have
    not been touched. *)
Theorem X6_failed_call_keeps_scaled_array self
    (other : option (pyweights scalar)) L sm am (a : nat) ws e st :
  py_getitem (shape_models self) L = Ok sm →
  py_getitem (appearance_models self) L = Ok am →
  st !! a = Some ws →
  (length ws ≤ length (eigenvalues sm))%nat →
  pca_instance sm (in_std_units mul sqrt sm ws) = Raise e →
  AAM_instance self (Some (NdArray a)) other (Some L) st =
    (Raise e, <[a := in_std_units mul sqrt sm ws]> st).
Proof.
  intros Hs Ha Hws Hks He.
  rewrite (instance_at_level self (Some (NdArray a)) other L sm am st Hs Ha).
  cbn beta iota zeta delta [default from_option id].
  rewrite (scale_fits sm (NdArray a) ws st _ Hws Hks).
  cbn [store_after]. unfold bind at 1, lift at 1. by rewrite He.
Qed.

(** X7.  One array passed as both weight arguments is scaled twice: the
    appearance model receives the vector already multiplied by the shape
    model's square roots and multiplied again by its own, and that is
    what the array holds after a call whose shape part succeeded. *)
Theorem X7_same_array_for_both self L sm am (a : nat) ws st :
  py_getitem (shape_models self) L = Ok sm →
  py_getitem (appearance_models self) L = Ok am →
  st !! a = Some ws →
  (length ws ≤ length (eigenvalues sm))%nat →
  (length ws ≤ length (eigenvalues am))%nat →
  (AAM_instance self (Some (NdArray a)) (Some (NdArray a)) (Some L) st).1 =
    (try shape_instance <- pca_instance sm (in_std_units mul sqrt sm ws);
     try appearance_instance <-
       pca_instance am
         (in_std_units mul sqrt am (in_std_units mul sqrt sm ws));
     AAM__instance self L shape_instance appearance_instance)
  ∧ (∀ si, pca_instance sm (in_std_units mul sqrt sm ws) = Ok si →
       (AAM_instance self (Some (NdArray a)) (Some (NdArray a))
                     (Some L) st).2 =
       <[a := in_std_units mul sqrt am (in_std_units mul sqrt sm ws)]> st).
Proof.
  intros Hs Ha Hws Hks Hka.
  assert (contents (<[a := in_std_units mul sqrt sm ws]> st) (NdArray a)
          = Some (in_std_units mul sqrt sm ws)) as Hc
    by apply lookup_insert_eq.
  assert (length (in_std_units mul sqrt sm ws)
          ≤ length (eigenvalues am))%nat as Hl
    by (rewrite length_in_std_units; lia).
  assert (AAM_instance self (Some (NdArray a)) (Some (NdArray a)) (Some L) st =
          match pca_instance sm (in_std_units mul sqrt sm ws) with
          | Ok si =>
              (try ai <- pca_instance am
                           (in_std_units mul sqrt am
                              (in_std_units mul sqrt sm ws));
               AAM__instance self L si ai,
               <[a := in_std_units mul sqrt am
                        (in_std_units mul sqrt sm ws)]> st)
          | Raise e => (Raise e, <[a := in_std_units mul sqrt sm ws]> st)
          end) as ->.
  { rewrite (instance_at_level self _ _ L sm am st Hs Ha).
    cbn beta iota zeta delta [default from_option id].
    rewrite (scale_fits sm (NdArray a) ws st _ Hws Hks).
    cbn [store_after]. unfold bind at 1, lift at 1.
    destruct (pca_instance sm _) as [si|]; [|done].
    rewrite (scale_fits am (NdArray a) _ _ _ Hc Hl).
    cbn [store_after]. rewrite insert_insert_eq.
    unfold bind, lift. by destruct (pca_instance am _). }
  split.
  - by destruct (pca_instance sm _).
  - by intros si ->.
Qed.

Lemma appearance_default_tail self L am (si : shape) st :
  bind (py_len (PyList [zero])) (λ n,
    bind (imul mul (PyList [zero]) (sqrt_eigenvalues sqrt am n))
      (λ v, bind (lift (pca_instance am v)) (λ ai,
        lift (AAM__instance self L si ai)))) st =
  (try v <- np_multiply mul [zero] (sqrt_eigenvalues sqrt am 1);
   try ai <- pca_instance am v;
   AAM__instance self L si ai, st).
Proof.
  rewrite (scale_step am (PyList [zero]) [zero] st _ eq_refl).
  cbn [length store_after].
  destruct (np_multiply mul [zero] _) as [v|]; [cbn [rbind]|done].
  unfold bind, lift. by destruct (pca_instance am v).
Qed.

Lemma instance_shape_weights_only self L sm am w ws st :
  py_getitem (shape_models self) L = Ok sm →
  py_getitem (appearance_models self) L = Ok am →
  contents st w = Some ws →
  (length ws ≤ length (eigenvalues sm))%nat →
  AAM_instance self (Some w) None (Some L) st =
    match pca_instance sm (in_std_units mul sqrt sm ws) with
    | Ok si =>
        (try v <- np_multiply mul [zero] (sqrt_eigenvalues sqrt am 1);
         try ai <- pca_instance am v;
         AAM__instance self L si ai,
         store_after w (in_std_units mul sqrt sm ws) st)
    | Raise e => (Raise e, store_after w (in_std_units mul sqrt sm ws) st)
    end.
Proof.
  intros Hs Ha Hws Hks.
  rewrite (instance_at_level self (Some w) None L sm am st Hs Ha).
  cbn beta iota zeta delta [default from_option id].
  rewrite (scale_fits sm w ws st _ Hws Hks).
  unfold bind at 1, lift at 1.
  destruct (pca_instance sm _) as [si|]; [|done].
  apply appearance_default_tail.
Qed.

(** X8.  Calls do not leave an array as they found it, so they compound:
    a second call with the same array of shape weights does what a call
    on the once-scaled values as a list does. *)
Theorem X8_second_call_scales_again self L sm am (a : nat) ws st st' :
  py_getitem (shape_models self) L = Ok sm →
  py_getitem (appearance_models self) L = Ok am →
  st !! a = Some ws →
  (length ws ≤ length (eigenvalues sm))%nat →
  (AAM_instance self (Some (NdArray a)) None (Some L)
     (AAM_instance self (Some (NdArray a)) None (Some L) st).2).1 =
  (AAM_instance self (Some (PyList (in_std_units mul sqrt sm ws))) None
                (Some L) st').1.
Proof.
  intros Hs Ha Hws Hks.
  assert (length (in_std_units mul sqrt sm ws)
          ≤ length (eigenvalues sm))%nat as Hl
    by (rewrite length_in_std_units; lia).
  rewrite (instance_writes_shape_array self L sm am a ws st Hs Ha Hws Hks).
  rewrite (instance_shape_weights_only self L sm am (NdArray a)
             (in_std_units mul sqrt sm ws) _ Hs Ha
             (lookup_insert_eq _ _ _) Hl).
  rewrite (instance_shape_weights_only self L sm am
             (PyList (in_std_units mul sqrt sm ws))
             (in_std_units mul sqrt sm ws) st' Hs Ha eq_refl Hl).
  by destruct (pca_instance sm _).
Qed.

(** ** Failures of the synthesis step *)

Lemma bind_not_ok {S A B} (m : M S A) (k : A → M S B) s (b : B) :
  (∀ a s', (k a s').1 ≠ Ok b) → (bind m k s).1 ≠ Ok b.
Proof.
  intros H. unfold bind. destruct (m s) as [[a|e] s']; [apply H | done].
Qed.

Lemma _instance_without_template_source self L am (si : shape) (ai : image) :
  py_getitem (appearance_models self) L = Ok am →
  landmarks (mean am) !! "source"%string = None →
  AAM__instance self L si ai = Raise KeyError.
Proof.
  intros Ha Hl. unfold _instance. rewrite Ha. cbn [rbind].
  unfold getitem_landmarks. by rewrite Hl.
Qed.

(** X9.  When the mean appearance of a level carries no ['source']
    landmarks, the synthesis step raises [KeyError] for every shape and
    appearance instance, so neither [instance] nor [random_instance]
    returns an image at that level, whatever the weights, the store and
    the generator. *)
Theorem X9_template_without_source self L am :
  py_getitem (appearance_models self) L = Ok am →
  landmarks (mean am) !! "source"%string = None →
  (∀ (si : shape) (ai : image), AAM__instance self L si ai = Raise KeyError)
  ∧ (∀ (sw aw : option (pyweights scalar)) st img,
       (AAM_instance self sw aw (Some L) st).1 ≠ Ok img)
  ∧ (∀ (g : rng) img, (AAM_random_instance self (Some L) g).1 ≠ Ok img).
Proof.
  intros Ha Hl.
  split; [intros; by eapply _instance_without_template_source|].
  split.
  - intros sw aw st img. unfold instance.
    cbn beta iota zeta delta [default from_option id].
    repeat (apply bind_not_ok; intros ? ?).
    unfold lift. cbn [fst].
    by rewrite (_instance_without_template_source self L am _ _ Ha Hl).
  - intros g img. unfold random_instance.
    cbn beta iota zeta delta [default from_option id].
    repeat (apply bind_not_ok; intros ? ?).
    unfold lift. cbn [fst].
    by rewrite (_instance_without_template_source self L am _ _ Ha Hl).
Qed.

(** X10.  The synthesis step passes on a failure of the frame builder
    unchanged; a frame without ['source'] landmarks gives [KeyError]
    before any transform is built; a frame without mask never gives an
    image, and gives [AttributeError] once the transform is built and
    the appearance instance is unmasked. *)
Theorem X10_unusable_frame self L am lms (si : shape) (ai : image) :
  py_getitem (appearance_models self) L = Ok am →
  landmarks (mean am) !! "source"%string = Some lms →
  (∀ e, AAM__build_reference_frame self si lms = Raise e →
        AAM__instance self L si ai = Raise e)
  ∧ (∀ rf, AAM__build_reference_frame self si lms = Ok rf →
           landmarks rf !! "source"%string = None →
           AAM__instance self L si ai = Raise KeyError)
  ∧ (∀ rf, AAM__build_reference_frame self si lms = Ok rf →
           mask_attr rf = None →
           (∀ img, AAM__instance self L si ai ≠ Ok img)
           ∧ (∀ rl t u, landmarks rf !! "source"%string = Some rl →
                transform self rl lms = Ok t →
                as_unmasked ai false = Ok u →
                AAM__instance self L si ai = Raise AttributeError)).
Proof.
  intros Ha Hl.
  assert (AAM__instance self L si ai =
          (try rf <- AAM__build_reference_frame self si lms;
           try rl <- getitem_landmarks rf "source";
           try t <- transform self rl lms;
           try u <- as_unmasked ai false;
           try m <- getattr_mask rf;
           warp_to_mask u m t true)) as ->.
  { unfold _instance. rewrite Ha. cbn [rbind].
    unfold getitem_landmarks at 1. by rewrite Hl. }
  split; [by intros e ->|]. split.
  - intros rf -> Hrl. cbn [rbind]. unfold getitem_landmarks. by rewrite Hrl.
  - intros rf -> Hm. cbn [rbind]. unfold getattr_mask. rewrite Hm. split.
    + intros img. destruct (getitem_landmarks rf _); [cbn [rbind]|done].
      destruct (transform self _ _); [cbn [rbind]|done].
      by destruct (as_unmasked ai false).
    + intros rl t u Hrl Ht Hu. unfold getitem_landmarks.
      rewrite Hrl. cbn [rbind]. rewrite Ht. cbn [rbind]. by rewrite Hu.
Qed.

(** X11.  Each class calls its own frame builder and never the other
    one: [instance] of a patch-based model is the same whatever stands in
    for the dense builder, and [instance] of a dense model the same
    whatever stands in for the patch builder. *)
Theorem X11_other_builder_is_never_called self
    (sw aw : option (pyweights scalar)) (level : option Z) st
    (other_dense : shape → option trilist_t → result image)
    (other_patch : shape → nat * nat → result image) :
  (∀ patch_shape, cls self = PatchBasedAAM_cls patch_shape →
     instance zero mul sqrt other_dense build_patch_reference_frame
              as_unmasked warp_to_mask self sw aw level st =
     AAM_instance self sw aw level st)
  ∧ (cls self = AAM_cls →
     instance zero mul sqrt build_reference_frame other_patch
              as_unmasked warp_to_mask self sw aw level st =
     AAM_instance self sw aw level st).
Proof.
  split.
  - intros ps Hc. unfold instance.
    repeat (apply bind_ext; intros ? ?).
    unfold lift, _instance, _build_reference_frame. by rewrite Hc.
  - intros Hc. unfold instance.
    repeat (apply bind_ext; intros ? ?).
    unfold lift, _instance, _build_reference_frame. by rewrite Hc.
Qed.

(** ** The generator *)

(** X12.  [random_instance] draws for the shape model first and for the
    appearance model only once the shape instance exists: a call that
    fails in the shape part has advanced the generator by one draw, a
    call that gets past it by two. *)
Theorem X12_random_instance_draws self L sm am (g g1 g2 : rng) zs za :
  py_getitem (shape_models self) L = Ok sm →
  py_getitem (appearance_models self) L = Ok am →
  randn (n_active_components sm) g = (zs, g1) →
  randn (n_active_components am) g1 = (za, g2) →
  (∀ e, np_multiply mul zs
          (sqrt_eigenvalues sqrt sm (n_active_components sm)) = Raise e →
        AAM_random_instance self (Some L) g = (Raise e, g1))
  ∧ (∀ v e, np_multiply mul zs
              (sqrt_eigenvalues sqrt sm (n_active_components sm)) = Ok v →
            pca_instance sm v = Raise e →
            AAM_random_instance self (Some L) g = (Raise e, g1))
  ∧ (∀ v si, np_multiply mul zs
               (sqrt_eigenvalues sqrt sm (n_active_components sm)) = Ok v →
             pca_instance sm v = Ok si →
             (AAM_random_instance self (Some L) g).2 = g2).
Proof.
  intros Hs Ha Hzs Hza.
  assert (AAM_random_instance self (Some L) g =
          bind (lift (np_multiply mul zs
                  (sqrt_eigenvalues sqrt sm (n_active_components sm))))
            (λ v, bind (lift (pca_instance sm v)) (λ si,
               bind (np_random_randn randn (n_active_components am)) (λ z,
                 bind (lift (np_multiply mul z
                         (sqrt_eigenvalues sqrt am (n_active_components am))))
                   (λ v', bind (lift (pca_instance am v')) (λ ai,
                      lift (AAM__instance self L si ai)))))) g1) as ->.
  { unfold random_instance.
    cbn beta iota zeta delta [default from_option id].
    unfold bind at 1, lift at 1. rewrite Hs.
    unfold bind at 1, lift at 1. rewrite Ha.
    unfold bind at 1, np_random_randn at 1. by rewrite Hzs. }
  split; [|split].
  - intros e He. unfold bind at 1, lift at 1. by rewrite He.
  - intros v e Hv He. unfold bind at 1, lift at 1. rewrite Hv.
    unfold bind at 1, lift at 1. by rewrite He.
  - intros v si Hv Hsi. unfold bind at 1, lift at 1. rewrite Hv.
    unfold bind at 1, lift at 1. rewrite Hsi.
    unfold bind at 1, np_random_randn at 1. rewrite Hza.
    unfold bind, lift.
    destruct (np_multiply mul za _) as [v'|]; [|done].
    by destruct (pca_instance am v').
Qed.

(** ** Models without components, vectors that do not fit *)

Lemma scale_mismatch {T A} (m : PCAModel scalar T) w ws st
    (k : list scalar → M store A) :
  contents st w = Some ws →
  (length (eigenvalues m) < length ws)%nat →
  length (eigenvalues m) ≠ 1%nat →
  (length ws ≠ 1%nat ∨ ∃ a, w = NdArray a) →
  bind (py_len w) (λ n, bind (imul mul w (sqrt_eigenvalues sqrt m n)) k) st =
  (Raise ValueError, st).
Proof.
  intros Hw Hlt Hn1 Hk. rewrite (scale_step m w ws st k Hw).
  assert (length (sqrt_eigenvalues sqrt m (length ws))
          = length (eigenvalues m)) as Hl
    by (rewrite length_sqrt_eigenvalues; lia).
  destruct w as [l|a].
  - rewrite np_multiply_mismatch; [done|lia| |lia].
    destruct Hk as [?|[a ?]]; [done|discriminate].
  - rewrite np_imultiply_mismatch; [done|lia|lia].
Qed.

(** X13.  A vector of shape weights longer than the eigenvalue sequence
    makes [instance] raise [ValueError] and write nothing, unless there is
    exactly one eigenvalue, or the weights are a Python list of one
    number; in particular a model without eigenvalues rejects every
    array and every list of two or more weights. *)
Theorem X13_shape_weights_do_not_fit self
    (other : option (pyweights scalar)) L sm am sw ws st :
  py_getitem (shape_models self) L = Ok sm →
  py_getitem (appearance_models self) L = Ok am →
  contents st sw = Some ws →
  (length (eigenvalues sm) < length ws)%nat →
  length (eigenvalues sm) ≠ 1%nat →
  (length ws ≠ 1%nat ∨ ∃ a, sw = NdArray a) →
  AAM_instance self (Some sw) other (Some L) st = (Raise ValueError, st).
Proof.
  intros Hs Ha Hws Hlt Hn1 Hk.
  rewrite (instance_at_level self (Some sw) other L sm am st Hs Ha).
  cbn beta iota zeta delta [default from_option id].
  by apply scale_mismatch with (ws := ws).
Qed.

(** X14.  A level whose two models have no eigenvalues can still be
    rendered with omitted weights or with a one-number list: the single
    coefficient is dropped and each model receives the empty vector. *)
Theorem X14_models_without_eigenvalues self (ls la : option scalar) L sm am st :
  py_getitem (shape_models self) L = Ok sm →
  py_getitem (appearance_models self) L = Ok am →
  eigenvalues sm = [] → eigenvalues am = [] →
  AAM_instance self (PyList <$> ((λ a, [a]) <$> ls))
                    (PyList <$> ((λ a, [a]) <$> la)) (Some L) st =
    (try shape_instance <- pca_instance sm [];
     try appearance_instance <- pca_instance am [];
     AAM__instance self L shape_instance appearance_instance, st).
Proof.
  intros Hs Ha Hes Hea. rewrite instance_lists_pipeline.
  cbn beta iota zeta delta [default from_option id].
  rewrite Hs, Ha. cbn [rbind]. unfold sqrt_eigenvalues.
  rewrite Hes, Hea, !take_nil.
  by destruct ls, la.
Qed.

(** ** Display *)

Context (splitlines : string → list string).

(** X15.  The description of a patch-based model keeps every line of the
    base description but the first, which becomes the patch-based title,
    and gains one line with the patch size, width before height, as the
    sixth line (or as the last line of a description of fewer than five
    lines); an empty base description raises [IndexError]. *)
Theorem X15_patch_description self (patch_shape : nat * nat) (out : string) :
  cls self = PatchBasedAAM_cls patch_shape →
  (∀ first rest, splitlines out = first :: rest →
     __str__ splitlines self out =
       Ok (py_join newline
             ("Patch-Based Active Appearance Model"%string :: take 4 rest ++
              ("   - Patch size is " +:+ pretty patch_shape.2 +:+ "W x " +:+
               pretty patch_shape.1 +:+ "H.")%string :: drop 4 rest)))
  ∧ (splitlines out = [] → __str__ splitlines self out = Raise IndexError).
Proof.
  intros Hc. unfold __str__, _str_title. rewrite Hc. split.
  - intros first rest ->. reflexivity.
  - intros ->. reflexivity.
Qed.

End Properties.

(** * The synthetic model at work *)

Import Toy.

Local Open Scope float_scope.

(** C1 at level 1 of the synthetic model: the caller's array [[1, 2]] and the
    list [[1, 1]] reach the models as [[2, 6]] and [[4, 1]]. *)
Lemma C1_witness :
  (run_instance aam (Some (NdArray 0)) (Some (PyList [1; 1]))
                (Some 1%Z) {[ 0%nat := [1; 2] ]}).1 =
    (try shape_instance <- pca_instance sm1 [2; 6];
     try appearance_instance <- pca_instance am1 [4; 1];
     run__instance aam 1 shape_instance appearance_instance).
Proof.
  refine (proj1 (C1_instance_scales_weights 0 PrimFloat.mul PrimFloat.sqrt
            build_reference_frame build_patch_reference_frame
            as_unmasked warp_to_mask
            aam (NdArray 0) (PyList [1; 1]) 1%Z sm1 am1 [1; 2] [1; 1]
            {[ 0%nat := [1; 2] ]} _ _ _ _ _ _));
    first [reflexivity | cbn; lia].
Defined.

(** C2 at level 1 of the synthetic model. *)
Lemma C2_witness :
  run_instance aam None None (Some 1%Z) ∅ =
    run_instance aam (Some (PyList [0])) (Some (PyList [0])) (Some 1%Z) ∅
  ∧ run_instance aam None None (Some 1%Z) ∅ =
    (run__instance aam 1 (mean sm1) (mean am1), ∅).
Proof.
  refine (C2_instance_none_is_mean 0 PrimFloat.mul PrimFloat.sqrt
            build_reference_frame build_patch_reference_frame
            as_unmasked warp_to_mask
            aam 1%Z sm1 am1 ∅ _ _ _ _ _ _ _ _);
    first [reflexivity | by intros e [= <-]].
Defined.

(** C6 at level 1 of the synthetic model, for the mean shape and the mean
    appearance. *)
Lemma C6_witness :
  run__instance aam 1 mean_shape (mean am1) =
    (try warp <- point_warp mean_shape (mesh [(0, 1, 2)%nat]);
     try unmasked <- as_unmasked (mean am1) false;
     warp_to_mask unmasked (DenseMask triangle (Some [(0, 1, 2)%nat]))
                  warp true).
Proof.
  refine (C6_synthesis_step
            build_reference_frame build_patch_reference_frame
            as_unmasked warp_to_mask
            aam 1%Z am1 (mesh [(0, 1, 2)%nat]) frame1 mean_shape
            (DenseMask triangle (Some [(0, 1, 2)%nat]))
            mean_shape (mean am1) _ _ _ _ _);
    reflexivity.
Defined.

(** C10 for template landmarks of class [ColouredTriMesh]. *)
Lemma C10_witness :
  _build_reference_frame build_reference_frame build_patch_reference_frame
    aam_coloured mean_shape (coloured_mesh [(0, 1, 2)%nat]) =
  build_reference_frame mean_shape None.
Proof.
  refine (proj1 (proj1 (C10_exact_type_test
            build_reference_frame build_patch_reference_frame
            as_unmasked warp_to_mask
            aam_coloured 0%Z am_coloured mean_shape
            (coloured_mesh [(0, 1, 2)%nat]) mean_shape (mean am_coloured)
            _ _ _) _)); try reflexivity.
  split; [by exists ["ColouredTriMesh"%string] | discriminate].
Defined.

(** C3 at level 1: the frame of a mesh triangulated [(0, 2, 1)] takes the
    template's triangulation [(0, 1, 2)]. *)
Lemma C3_witness :
  run__instance aam 1 (mesh [(0, 2, 1)%nat]) (mean am1) =
    spec_synthesize as_unmasked warp_to_mask
      (dense_frame build_reference_frame)
      aam 1 (mesh [(0, 2, 1)%nat]) (mean am1)
  ∧ _build_reference_frame build_reference_frame build_patch_reference_frame
      aam (mesh [(0, 2, 1)%nat]) (mesh [(0, 1, 2)%nat]) =
    build_reference_frame (mesh [(0, 2, 1)%nat]) (Some [(0, 1, 2)%nat]).
Proof.
  pose proof (C3_frame_uses_template_triangulation
                build_reference_frame build_patch_reference_frame
                as_unmasked warp_to_mask
                aam 1%Z am1 (mesh [(0, 1, 2)%nat])
                (mesh [(0, 2, 1)%nat]) (mean am1)
                eq_refl eq_refl eq_refl) as (H1 & H2 & _).
  split; [exact H1 | exact (H2 _ eq_refl eq_refl)].
Defined.

(** C3 as the specification words it does not hold: the shape instance of
    this dense model is a [TriMesh] with a triangulation of its own, yet
    the frame is built without any, because the template landmarks are a
    point cloud. *)
Lemma C3_counterexample :
  pca_instance sm_mesh [0] = Ok (mesh [(0, 2, 1)%nat])
  ∧ shape_type (mesh [(0, 2, 1)%nat]) = TriMesh
  ∧ run__instance aam_mesh_shapes 0 (mesh [(0, 2, 1)%nat]) (mean am_cloud) =
      Ok {| pixels := [10; 20; 30; 40];
            mask_attr := Some (DenseMask triangle None);
            landmarks := {[ "source"%string := mean_shape ]} |}
  ∧ run__instance aam_mesh_shapes 0 (mesh [(0, 2, 1)%nat]) (mean am_cloud) ≠
      spec_synthesize as_unmasked warp_to_mask
        (shape_own_frame build_reference_frame)
        aam_mesh_shapes 0 (mesh [(0, 2, 1)%nat]) (mean am_cloud).
Proof.
  repeat split.
  intros H.
  apply (f_equal (λ r, match r with
                       | Ok {| mask_attr := Some (DenseMask _ None) |} => true
                       | _ => false
                       end)) in H.
  vm_compute in H. discriminate.
Qed.

(** C8 on the two-level synthetic model: level [-1] is level [1], and works
    with the second shape model and the second appearance model. *)
Lemma C8_witness :
  run_instance aam (Some (PyList [1; 2])) None (Some (-1)%Z) ∅ =
    run_instance aam (Some (PyList [1; 2])) None (Some 1%Z) ∅
  ∧ run_instance aam (Some (PyList [1; 2])) None (Some (-1)%Z) ∅ =
    instance_with 0 PrimFloat.mul PrimFloat.sqrt
      build_reference_frame build_patch_reference_frame
      as_unmasked warp_to_mask aam sm1 am1 (Some (PyList [1; 2])) None ∅
  ∧ run_random_instance aam None 0%nat =
    random_instance_with PrimFloat.mul PrimFloat.sqrt
      build_reference_frame build_patch_reference_frame
      as_unmasked warp_to_mask randn aam sm1 am1 0%nat.
Proof.
  pose proof (C8_level_minus_one 0 PrimFloat.mul PrimFloat.sqrt
                build_reference_frame build_patch_reference_frame
                as_unmasked warp_to_mask randn
                aam (Some (PyList [1; 2])) None ∅ 0%nat eq_refl)
    as (H1 & _ & _ & _ & _ & H2 & _).
  destruct (H2 sm1 am1 eq_refl eq_refl) as (H3 & _ & H4).
  exact (conj H1 (conj H3 H4)).
Defined.

(** C9 on the dense and on the patch-based synthetic model. *)
Lemma C9_witness :
  run_instance aam (Some (PyList [1; 2])) None None ∅ =
    spec_instance 0 PrimFloat.mul PrimFloat.sqrt as_unmasked warp_to_mask
      (dense_frame build_reference_frame)
      aam (Some (PyList [1; 2])) None None ∅
  ∧ run_instance patch_aam (Some (PyList [1; 2])) None None ∅ =
    spec_instance 0 PrimFloat.mul PrimFloat.sqrt as_unmasked warp_to_mask
      (patch_frame build_patch_reference_frame (4, 4)%nat)
      patch_aam (Some (PyList [1; 2])) None None ∅.
Proof.
  split.
  - exact (proj1 (C9_patch_based_differs_in_frame_only
             0 PrimFloat.mul PrimFloat.sqrt
             build_reference_frame build_patch_reference_frame
             as_unmasked warp_to_mask
             aam (Some (PyList [1; 2])) None None ∅) eq_refl).
  - exact (proj1 (proj2 (C9_patch_based_differs_in_frame_only
             0 PrimFloat.mul PrimFloat.sqrt
             build_reference_frame build_patch_reference_frame
             as_unmasked warp_to_mask
             patch_aam (Some (PyList [1; 2])) None None ∅)
             (4, 4)%nat eq_refl)).
Defined.

(** C7 at level 1 of the patch-based model: two draws of ones become
    [[2, 3]] and [[4, 1]]. *)
Lemma C7_witness :
  (run_random_instance patch_aam (Some 1%Z) 0%nat).1 =
    (try shape_instance <- pca_instance sm1 [2; 3];
     try appearance_instance <- pca_instance am1 [4; 1];
     run__instance patch_aam 1 shape_instance appearance_instance).
Proof.
  refine (proj1 (C7_random_instance 0 PrimFloat.mul PrimFloat.sqrt
            build_reference_frame build_patch_reference_frame
            as_unmasked warp_to_mask randn
            patch_aam 1%Z sm1 am1 0%nat 1%nat 2%nat [1; 1] [1; 1]
            _ _ _ _ _ _ _ _));
    first [reflexivity | cbn; lia].
Defined.

(** C4 on the synthetic model: three weights against the two eigenvalues
    of level 1 raise; at level 0, with one eigenvalue per model, two shape
    weights become [[3, 6]] and two appearance weights [[2, 4]]; a list
    of one weight against a model without eigenvalues becomes empty. *)
Lemma C4_witness :
  run_instance aam (Some (PyList [1; 2; 3])) None (Some 1%Z) ∅ =
    (Raise ValueError, ∅)
  ∧ (run_instance aam (Some (PyList [1; 2])) (Some (PyList [1; 2]))
                  (Some 0%Z) ∅).1 =
    (try shape_instance <- pca_instance sm0 [3; 6];
     try appearance_instance <- pca_instance am0 [2; 4];
     run__instance aam 0 shape_instance appearance_instance)
  ∧ scaled_weights PrimFloat.mul PrimFloat.sqrt sm_none (PyList [5]) [5] =
    Ok [].
Proof.
  split; [|split].
  - exact (proj1 (C4_vectors_longer_than_eigenvalues
             0 PrimFloat.mul PrimFloat.sqrt
             build_reference_frame build_patch_reference_frame
             as_unmasked warp_to_mask
             aam 1%Z sm1 am1 (PyList [1; 2; 3]) [1; 2; 3] ∅
             eq_refl eq_refl eq_refl) ValueError None eq_refl).
  - exact (proj1 (proj2 (C4_vectors_longer_than_eigenvalues
             0 PrimFloat.mul PrimFloat.sqrt
             build_reference_frame build_patch_reference_frame
             as_unmasked warp_to_mask
             aam 0%Z sm0 am0 (PyList [1; 2]) [1; 2] ∅
             eq_refl eq_refl eq_refl))
             (PyList [1; 2]) [3; 6] [1; 2] eq_refl eq_refl).
  - refine (proj1 (proj2 (proj2 (proj2 (C4_vectors_longer_than_eigenvalues
             0 PrimFloat.mul PrimFloat.sqrt
             build_reference_frame build_patch_reference_frame
             as_unmasked warp_to_mask
             aam 1%Z sm1 am1 (PyList [1]) [1] ∅
             eq_refl eq_refl eq_refl))
             _ sm_none (PyList [5]) [5] _)) eq_refl _).
    + cbn. lia.
    + by exists [5].
Defined.

(** C4 as the specification words it does not hold: three shape weights
    against the two eigenvalues of level 1 raise [ValueError], where the
    first two of them alone give an image. *)
Lemma C4_counterexample :
  run_instance aam (Some (PyList [1; 2; 3])) None (Some 1%Z) ∅ =
    (Raise ValueError, ∅)
  ∧ ∃ img, run_instance aam (Some (PyList (take 2 [1; 2; 3]))) None
                        (Some 1%Z) ∅ = (Ok img, ∅).
Proof. split; [reflexivity | eexists; reflexivity]. Qed.

(** C5 does not hold of the code.  The caller's array [a0 = [1, 2]] is
    passed as shape weights to the level-1 model with eigenvalues
    [[4, 9]]: the call returns an image, and [a0] now holds [[2, 6]]. *)
Lemma C5_caller_array_is_overwritten :
  ({[ 0%nat := [1; 2] ]} : gmap nat (list float)) !! 0%nat = Some [1; 2]
  ∧ (∃ img, (run_instance aam (Some (NdArray 0)) None None
                          {[ 0%nat := [1; 2] ]}).1 = Ok img)
  ∧ (run_instance aam (Some (NdArray 0)) None None
                  {[ 0%nat := [1; 2] ]}).2 !! 0%nat = Some [2; 6]
  ∧ (run_instance aam (Some (NdArray 0)) None None
                  {[ 0%nat := [1; 2] ]}).2 ≠ {[ 0%nat := [1; 2] ]}.
Proof.
  split; [reflexivity|]. split; [eexists; reflexivity|].
  split; [reflexivity|].
  intros H.
  apply (f_equal (λ m : gmap nat (list float), first_is 1 (m !! 0%nat))) in H.
  vm_compute in H. discriminate.
Qed.

(** * The further properties on the synthetic model *)

(** X1: level 2 of a two-level model, with an array as shape weights. *)
Lemma X1_witness :
  run_instance aam (Some (NdArray 0)) None (Some 2%Z) {[ 0%nat := [1; 2] ]} =
    (Raise IndexError, {[ 0%nat := [1; 2] ]})
  ∧ run_random_instance aam (Some 2%Z) 7%nat = (Raise IndexError, 7%nat).
Proof.
  refine (X1_level_out_of_range 0 PrimFloat.mul PrimFloat.sqrt
            build_reference_frame build_patch_reference_frame
            as_unmasked warp_to_mask randn
            aam (Some (NdArray 0)) None 2%Z {[ 0%nat := [1; 2] ]} 7%nat _).
  left. cbn. lia.
Defined.

(** X2: level 1 of the two-level model. *)
Lemma X2_witness :
  (∃ sm am, py_getitem (shape_models aam) 1 = Ok sm
            ∧ py_getitem (appearance_models aam) 1 = Ok am)
  ↔ (- Z.of_nat (n_levels aam) ≤ 1 < Z.of_nat (n_levels aam))%Z.
Proof. exact (X2_valid_levels aam 1%Z eq_refl). Defined.

(** X3: level [-2] of the two-level model is level [0]. *)
Lemma X3_witness :
  run_instance aam (Some (PyList [1])) None (Some (-2)%Z) ∅ =
  run_instance aam (Some (PyList [1])) None (Some 0%Z) ∅.
Proof.
  refine (proj1 (X3_negative_levels 0 PrimFloat.mul PrimFloat.sqrt
            build_reference_frame build_patch_reference_frame
            as_unmasked warp_to_mask randn
            aam (Some (PyList [1])) None (-2)%Z ∅ 0%nat eq_refl _)).
  cbn. lia.
Defined.

(** X6: two weights fit the two eigenvalues on record, the one-component
    model rejects them, and the array holds [[2, 6]]. *)
Lemma X6_witness :
  run_instance aam_short (Some (NdArray 0)) None (Some 0%Z)
               {[ 0%nat := [1; 2] ]} =
    (Raise ValueError, <[ 0%nat := [2; 6] ]> {[ 0%nat := [1; 2] ]}).
Proof.
  refine (X6_failed_call_keeps_scaled_array 0 PrimFloat.mul PrimFloat.sqrt
            build_reference_frame build_patch_reference_frame
            as_unmasked warp_to_mask
            aam_short None 0%Z sm_short am0 0%nat [1; 2] ValueError
            {[ 0%nat := [1; 2] ]} _ _ _ _ _);
    first [reflexivity | cbn; lia].
Defined.

(** X7: the array [[1, 1]] reaches the shape model as [[2, 3]] and the
    appearance model as [[8, 3]]. *)
Lemma X7_witness :
  (run_instance aam (Some (NdArray 0)) (Some (NdArray 0)) (Some 1%Z)
                {[ 0%nat := [1; 1] ]}).1 =
    (try shape_instance <- pca_instance sm1 [2; 3];
     try appearance_instance <- pca_instance am1 [8; 3];
     run__instance aam 1 shape_instance appearance_instance).
Proof.
  refine (proj1 (X7_same_array_for_both 0 PrimFloat.mul PrimFloat.sqrt
            build_reference_frame build_patch_reference_frame
            as_unmasked warp_to_mask
            aam 1%Z sm1 am1 0%nat [1; 1] {[ 0%nat := [1; 1] ]} _ _ _ _ _));
    first [reflexivity | cbn; lia].
Defined.

(** X8: a second call on the array that held [[1, 2]] is a call on the
    list [[2, 6]]. *)
Lemma X8_witness :
  (run_instance aam (Some (NdArray 0)) None (Some 1%Z)
     (run_instance aam (Some (NdArray 0)) None (Some 1%Z)
                   {[ 0%nat := [1; 2] ]}).2).1 =
  (run_instance aam (Some (PyList [2; 6])) None (Some 1%Z) ∅).1.
Proof.
  refine (X8_second_call_scales_again 0 PrimFloat.mul PrimFloat.sqrt
            build_reference_frame build_patch_reference_frame
            as_unmasked warp_to_mask
            aam 1%Z sm1 am1 0%nat [1; 2] {[ 0%nat := [1; 2] ]} ∅ _ _ _ _);
    first [reflexivity | cbn; lia].
Defined.

(** X9: a template without landmarks. *)
Lemma X9_witness :
  run__instance aam_bare 0 mean_shape (mean am_bare) = Raise KeyError.
Proof.
  exact (proj1 (X9_template_without_source
           0 PrimFloat.mul PrimFloat.sqrt
           build_reference_frame build_patch_reference_frame
           as_unmasked warp_to_mask randn
           aam_bare 0%Z am_bare eq_refl eq_refl) mean_shape (mean am_bare)).
Defined.

(** X10: at level 1 of the dense model, with a builder that fails. *)
Lemma X10_witness :
  _instance no_dense_builder build_patch_reference_frame
            as_unmasked warp_to_mask aam 1 mean_shape (mean am1) =
  Raise TypeError.
Proof.
  exact (proj1 (X10_unusable_frame
           no_dense_builder build_patch_reference_frame
           as_unmasked warp_to_mask
           aam 1%Z am1 (mesh [(0, 1, 2)%nat]) mean_shape (mean am1)
           eq_refl eq_refl) TypeError eq_refl).
Defined.

(** X11: the patch-based model with a dense builder that always fails,
    the dense model with a patch builder that always fails. *)
Lemma X11_witness :
  instance 0 PrimFloat.mul PrimFloat.sqrt
           no_dense_builder build_patch_reference_frame
           as_unmasked warp_to_mask patch_aam None None None ∅ =
    run_instance patch_aam None None None ∅
  ∧ instance 0 PrimFloat.mul PrimFloat.sqrt
             build_reference_frame no_patch_builder
             as_unmasked warp_to_mask aam None None None ∅ =
    run_instance aam None None None ∅.
Proof.
  split.
  - exact (proj1 (X11_other_builder_is_never_called
                    0 PrimFloat.mul PrimFloat.sqrt
                    build_reference_frame build_patch_reference_frame
                    as_unmasked warp_to_mask
                    patch_aam None None None ∅
                    no_dense_builder no_patch_builder) (4, 4)%nat eq_refl).
  - exact (proj2 (X11_other_builder_is_never_called
                    0 PrimFloat.mul PrimFloat.sqrt
                    build_reference_frame build_patch_reference_frame
                    as_unmasked warp_to_mask
                    aam None None None ∅
                    no_dense_builder no_patch_builder) eq_refl).
Defined.

(** X12: two draws from generator state 0 leave it at 2. *)
Lemma X12_witness :
  (run_random_instance aam (Some 1%Z) 0%nat).2 = 2%nat.
Proof.
  refine (proj2 (proj2 (X12_random_instance_draws PrimFloat.mul PrimFloat.sqrt
            build_reference_frame build_patch_reference_frame
            as_unmasked warp_to_mask randn
            aam 1%Z sm1 am1 0%nat 1%nat 2%nat [1; 1] [1; 1]
            eq_refl eq_refl eq_refl eq_refl)) [2; 3] _ eq_refl eq_refl).
Defined.

(** X13: an array of one weight against a model without eigenvalues. *)
Lemma X13_witness :
  run_instance aam_none (Some (NdArray 0)) None (Some 0%Z)
               {[ 0%nat := [1] ]} =
    (Raise ValueError, {[ 0%nat := [1] ]}).
Proof.
  refine (X13_shape_weights_do_not_fit 0 PrimFloat.mul PrimFloat.sqrt
            build_reference_frame build_patch_reference_frame
            as_unmasked warp_to_mask
            aam_none None 0%Z sm_none am_none (NdArray 0) [1]
            {[ 0%nat := [1] ]} eq_refl eq_refl eq_refl _ _ _).
  - cbn. lia.
  - cbn. lia.
  - right. by exists 0%nat.
Defined.

(** X14: the model without eigenvalues, shape weights omitted, appearance
    weights [[5]]. *)
Lemma X14_witness :
  run_instance aam_none None (Some (PyList [5])) (Some 0%Z) ∅ =
    (try shape_instance <- pca_instance sm_none [];
     try appearance_instance <- pca_instance am_none [];
     run__instance aam_none 0 shape_instance appearance_instance, ∅).
Proof.
  exact (X14_models_without_eigenvalues 0 PrimFloat.mul PrimFloat.sqrt
           build_reference_frame build_patch_reference_frame
           as_unmasked warp_to_mask
           aam_none None (Some 5) 0%Z sm_none am_none ∅
           eq_refl eq_refl eq_refl eq_refl).
Defined.

(** X15: a patch shape of height 3 and width 7 on a base description of
    seven lines. *)
Lemma X15_witness :
  __str__ splitlines patch_aam_3_by_7 description =
    Ok (py_join newline
          ["Patch-Based Active Appearance Model"; " - 5 training images.";
           " - PiecewiseAffine Warp."; " - No pyramid used:";
           "   - Feature is no_op with 1 channel per image.";
           "   - Patch size is 7W x 3H.";
           "   - Reference frame of length 4 (4 x 1C, 2W x 2H x 1C)";
           "   - 2 shape components (95.00% of variance)"]%string).
Proof.
  exact (proj1 (X15_patch_description splitlines patch_aam_3_by_7
                  (3, 7)%nat description eq_refl)
               "Active Appearance Model"%string _ eq_refl).
Defined.
